(** * NVMe native multipath (drivers/nvme/host/multipath.c)

    A shallow embedding of the multipath core of the NVMe host driver:
    the failure classifier [nvme_req_needs_failover], the path selector
    [nvme_find_path], the requeue pipeline ([nvme_failover_req],
    [nvme_requeue_work]), the routing and polling entry points of the
    aggregate device and the bring-up / tear-down of the namespace head.

    Integers of the C code are [Z]; the bit operations are those of [Z],
    and a store into an [unsigned int] field writes its wrap-around out.
    Pointers to controllers and namespaces are names ([nat]) looked up in
    the kernel state; a NULL-able pointer is an [option]. *)

From Stdlib Require Import Ascii.
From stdpp Require Import base numbers list functions strings pretty.

Local Open Scope Z_scope.

(** ** Constants of the headers

    [nvme.h], [linux/nvme.h], [linux/blk_types.h], [linux/genhd.h] and
    [errno.h] are not part of the reviewed unit.  Everything below is
    stated for arbitrary values of their constants; [linux_headers]
    further down instantiates them with the values of the kernel tree. *)

Class kernel_headers := {
  (* linux/blk_types.h, nvme.h *)
  REQ_NVME_MPATH : Z;
  BLK_QC_T_NONE : Z;
  BLK_STS_IOERR : Z;
  (* linux/nvme.h: generic command status *)
  NVME_SC_INVALID_OPCODE : Z;
  NVME_SC_INVALID_FIELD : Z;
  NVME_SC_INVALID_NS : Z;
  NVME_SC_LBA_RANGE : Z;
  NVME_SC_CAP_EXCEEDED : Z;
  NVME_SC_RESERVATION_CONFLICT : Z;
  (* linux/nvme.h: I/O command set specific status *)
  NVME_SC_BAD_ATTRIBUTES : Z;
  NVME_SC_INVALID_PI : Z;
  NVME_SC_READ_ONLY : Z;
  NVME_SC_ONCS_NOT_SUPPORTED : Z;
  (* linux/nvme.h: media and data integrity errors *)
  NVME_SC_WRITE_FAULT : Z;
  NVME_SC_READ_ERROR : Z;
  NVME_SC_GUARD_CHECK : Z;
  NVME_SC_APPTAG_CHECK : Z;
  NVME_SC_REFTAG_CHECK : Z;
  NVME_SC_COMPARE_FAILED : Z;
  NVME_SC_ACCESS_DENIED : Z;
  NVME_SC_UNWRITTEN_BLOCK : Z;
  (* linux/nvme.h: opcodes and controller attributes *)
  nvme_fabrics_command : Z;
  NVME_CTRL_VWC_PRESENT : Z;
  (* linux/genhd.h, errno.h *)
  GENHD_FL_EXT_DEVT : Z;
  ENOMEM : Z;
  (* REQ_NVME_MPATH is a flag of the 32-bit [bi_opf] / [cmd_flags] word *)
  REQ_NVME_MPATH_flag : 0 < REQ_NVME_MPATH < 2 ^ 32
}.

(** ** Data model *)

Definition ctrl_ptr := nat.
Definition ns_ptr := nat.

(** Modelled from the spec: [enum nvme_ctrl_state] is declared in nvme.h,
    which is missing; these are the states the data model lists for a
    Connection.  The code only ever compares against [NVME_CTRL_LIVE]. *)
Inductive nvme_ctrl_state :=
  | NVME_CTRL_NEW
  | NVME_CTRL_CONNECTING
  | NVME_CTRL_LIVE
  | NVME_CTRL_RECONNECTING
  | NVME_CTRL_DELETING
  | NVME_CTRL_DEAD.

#[global] Instance nvme_ctrl_state_eq_dec : EqDecision nvme_ctrl_state.
Proof. solve_decision. Defined.

(** [struct nvme_subsystem], the fields read here. *)
Record nvme_subsystem := {
  subsys_instance : Z;
  cmic : Z
}.

(** [struct nvme_ctrl], the fields read here. *)
Record nvme_ctrl := {
  state : nvme_ctrl_state;
  subsys : nvme_subsystem;
  vwc : Z
}.

(** [struct nvme_ns]: a path.  [ns->disk] and [ns->queue] are the
    namespace's own objects and are named by the namespace. *)
Record nvme_ns := {
  ctrl : ctrl_ptr
}.

(** The [struct gendisk] a bio is aimed at: the disk of one path
    ([ns->disk]) or the aggregate device ([head->disk]). *)
Inductive gendisk_ptr :=
  | ns_disk (ns : ns_ptr)
  | head_disk.

#[global] Instance gendisk_ptr_eq_dec : EqDecision gendisk_ptr.
Proof. solve_decision. Defined.

(** [struct bio]: [bi_next] is the position in the list that holds it;
    [bi_id] names the buffer. *)
Record bio := {
  bi_id : nat;
  bi_disk : gendisk_ptr;
  bi_opf : Z;
  bi_status : Z
}.

#[global] Instance bio_eq_dec : EqDecision bio.
Proof. solve_decision. Defined.

(** [struct request] with its [struct nvme_request]: [rq_ns] is
    [req->q->queuedata], [rq_bios] the chain [req->bio .. req->biotail]. *)
Record request := {
  rq_id : nat;
  cmd_flags : Z;
  status : Z;
  opcode : Z;
  rq_bios : list bio;
  rq_ns : ns_ptr
}.

(** ** Failure classifier *)

Section classifier.
Context `{kernel_headers}.

Definition generic_command_status : list Z :=
  [NVME_SC_INVALID_OPCODE; NVME_SC_INVALID_FIELD; NVME_SC_INVALID_NS;
   NVME_SC_LBA_RANGE; NVME_SC_CAP_EXCEEDED; NVME_SC_RESERVATION_CONFLICT].

Definition io_command_set_status : list Z :=
  [NVME_SC_BAD_ATTRIBUTES; NVME_SC_INVALID_PI; NVME_SC_READ_ONLY;
   NVME_SC_ONCS_NOT_SUPPORTED].

Definition media_integrity_status : list Z :=
  [NVME_SC_WRITE_FAULT; NVME_SC_READ_ERROR; NVME_SC_GUARD_CHECK;
   NVME_SC_APPTAG_CHECK; NVME_SC_REFTAG_CHECK; NVME_SC_COMPARE_FAILED;
   NVME_SC_ACCESS_DENIED; NVME_SC_UNWRITTEN_BLOCK].

(** The case labels of the switch, in source order. *)
Definition unretryable_status : list Z :=
  generic_command_status ++ io_command_set_status ++ media_integrity_status.

(** The body of [nvme_req_needs_failover]: the verdict, and whether
    [WARN_ON_ONCE] saw its condition hold. *)
Definition nvme_req_needs_failover_body (req : request) : bool * bool :=
  if decide (Z.land (cmd_flags req) REQ_NVME_MPATH = 0) then (false, false)
  else
    let sc := Z.land (status req) 0x7ff in
    if decide (sc ∈ generic_command_status) then (false, false)
    else if decide (sc ∈ io_command_set_status) then
      (false, bool_decide (opcode req = nvme_fabrics_command))
    else if decide (sc ∈ media_integrity_status) then (false, false)
    else (true, false).

Definition nvme_req_needs_failover (req : request) : bool :=
  fst (nvme_req_needs_failover_body req).

(** A request that went through the multipath node carries the flag. *)
Definition mpath_routed (flags : Z) : Prop := Z.land flags REQ_NVME_MPATH ≠ 0.

#[global] Instance mpath_routed_dec flags : Decision (mpath_routed flags).
Proof. unfold mpath_routed. apply _. Defined.

End classifier.

(** ** The objects hanging off the namespace head *)

(** The functions this file registers as callbacks. *)
Inductive work_func_t := fn_nvme_requeue_work.
Inductive make_request_fn_t := fn_nvme_ns_head_make_request.
Inductive poll_fn_t := fn_nvme_ns_head_poll.
Inductive block_device_operations := nvme_ns_head_ops.

(** [struct request_queue] of the aggregate device, the fields written
    here.  [queuedata_head] says that [q->queuedata] is the head. *)
Record request_queue := {
  queuedata_head : bool;
  make_request_fn : option make_request_fn_t;
  poll_fn : option poll_fn_t;
  QUEUE_FLAG_NONROT : bool;
  QUEUE_FLAG_DYING : bool;
  logical_block_size : Z;
  write_cache : bool;
  fua : bool
}.

(** [struct gendisk] of the aggregate device.  [disk_queue] is
    [disk->queue], [private_data_head] says that [disk->private_data] is
    the head. *)
Record gendisk := {
  fops : option block_device_operations;
  private_data_head : bool;
  disk_queue : option request_queue;
  disk_flags : Z;
  disk_name : string
}.

(** [struct nvme_ns_head].  [siblings] is [head->list], the paths in
    list order; [requeue_lock] says whether the spinlock is held;
    [requeue_work] is the function of the work item and
    [requeue_work_pending] its pending bit. *)
Record nvme_ns_head := {
  siblings : list ns_ptr;
  current_path : option ns_ptr;
  requeue_list : list bio;
  requeue_lock : bool;
  requeue_work : option work_func_t;
  requeue_work_pending : bool;
  disk : option gendisk;
  instance : Z
}.

(** Calls that leave this file, in the order they are made. *)
Inductive event :=
  | ev_spin_lock_irqsave
  | ev_spin_unlock_irqrestore
  | ev_spin_lock_irq
  | ev_spin_unlock_irq
  | ev_srcu_read_lock
  | ev_srcu_read_unlock
  | ev_blk_steal_bios (rq : nat) (bios : list bio)
  | ev_bio_list_add (b : bio)
  | ev_bio_list_get (bios : list bio)
  | ev_blk_mq_end_request (rq : nat) (error : Z)
  | ev_nvme_reset_ctrl (c : ctrl_ptr)
  | ev_kblockd_schedule_work
  | ev_flush_work
  | ev_generic_make_request (b : bio)
  | ev_direct_make_request (b : bio)
  | ev_bio_endio (b : bio)
  | ev_dev_warn_ratelimited (msg : string)
  | ev_queue_poll_fn (ns : ns_ptr) (qc : Z)
  | ev_sysfs_remove_group
  | ev_del_gendisk
  | ev_blk_set_queue_dying
  | ev_blk_cleanup_queue
  | ev_put_disk.

#[global] Instance event_eq_dec : EqDecision event.
Proof. solve_decision. Defined.

(** The part of the kernel the multipath code reads and writes: the
    module parameter, the controllers and namespaces behind the pointers,
    one namespace head, and what the collaborators answer
    ([allocations]: whether the next allocations succeed, [cookie]: what
    [direct_make_request] returns, [poll_answer]: what a path's
    [poll_fn] returns).  [log] records the calls made, oldest first. *)
Record kernel := {
  multipath : bool;
  ctrls : ctrl_ptr -> nvme_ctrl;
  namespaces : ns_ptr -> nvme_ns;
  head : nvme_ns_head;
  allocations : list bool;
  cookie : bio -> Z;
  poll_answer : ns_ptr -> Z -> bool;
  log : list event
}.

(** *** Field updates *)

Definition set_bi_disk (d : gendisk_ptr) (b : bio) : bio :=
  {| bi_id := bi_id b; bi_disk := d; bi_opf := bi_opf b;
     bi_status := bi_status b |}.

Definition set_bi_opf (f : Z) (b : bio) : bio :=
  {| bi_id := bi_id b; bi_disk := bi_disk b; bi_opf := f;
     bi_status := bi_status b |}.

Definition set_bi_status (s : Z) (b : bio) : bio :=
  {| bi_id := bi_id b; bi_disk := bi_disk b; bi_opf := bi_opf b;
     bi_status := s |}.

Definition set_rq_bios (l : list bio) (r : request) : request :=
  {| rq_id := rq_id r; cmd_flags := cmd_flags r; status := status r;
     opcode := opcode r; rq_bios := l; rq_ns := rq_ns r |}.

Definition set_current_path (p : option ns_ptr) (h : nvme_ns_head) :=
  {| siblings := siblings h; current_path := p;
     requeue_list := requeue_list h; requeue_lock := requeue_lock h;
     requeue_work := requeue_work h;
     requeue_work_pending := requeue_work_pending h;
     disk := disk h; instance := instance h |}.

Definition set_requeue_list (l : list bio) (h : nvme_ns_head) :=
  {| siblings := siblings h; current_path := current_path h;
     requeue_list := l; requeue_lock := requeue_lock h;
     requeue_work := requeue_work h;
     requeue_work_pending := requeue_work_pending h;
     disk := disk h; instance := instance h |}.

Definition set_requeue_lock (held : bool) (h : nvme_ns_head) :=
  {| siblings := siblings h; current_path := current_path h;
     requeue_list := requeue_list h; requeue_lock := held;
     requeue_work := requeue_work h;
     requeue_work_pending := requeue_work_pending h;
     disk := disk h; instance := instance h |}.

Definition set_requeue_work (f : option work_func_t) (pending : bool)
    (h : nvme_ns_head) :=
  {| siblings := siblings h; current_path := current_path h;
     requeue_list := requeue_list h; requeue_lock := requeue_lock h;
     requeue_work := f; requeue_work_pending := pending;
     disk := disk h; instance := instance h |}.

Definition set_disk (d : option gendisk) (h : nvme_ns_head) :=
  {| siblings := siblings h; current_path := current_path h;
     requeue_list := requeue_list h; requeue_lock := requeue_lock h;
     requeue_work := requeue_work h;
     requeue_work_pending := requeue_work_pending h;
     disk := d; instance := instance h |}.

Definition set_head (h : nvme_ns_head) (k : kernel) : kernel :=
  {| multipath := multipath k; ctrls := ctrls k; namespaces := namespaces k;
     head := h; allocations := allocations k; cookie := cookie k;
     poll_answer := poll_answer k; log := log k |}.

Definition set_allocations (a : list bool) (k : kernel) : kernel :=
  {| multipath := multipath k; ctrls := ctrls k; namespaces := namespaces k;
     head := head k; allocations := a; cookie := cookie k;
     poll_answer := poll_answer k; log := log k |}.

Definition set_log (l : list event) (k : kernel) : kernel :=
  {| multipath := multipath k; ctrls := ctrls k; namespaces := namespaces k;
     head := head k; allocations := allocations k; cookie := cookie k;
     poll_answer := poll_answer k; log := l |}.

Definition set_ctrls (c : ctrl_ptr -> nvme_ctrl) (k : kernel) : kernel :=
  {| multipath := multipath k; ctrls := c; namespaces := namespaces k;
     head := head k; allocations := allocations k; cookie := cookie k;
     poll_answer := poll_answer k; log := log k |}.

(** ** The monad of kernel code

    A computation reads and writes the kernel state and either returns or
    stops for good ([None]): a NULL pointer dereferenced, a function
    pointer never set, a spinlock taken twice. *)

Definition M (A : Type) : Type := kernel -> option (A * kernel).

#[global] Instance M_ret : MRet M := fun A a k => Some (a, k).

#[global] Instance M_bind : MBind M := fun A B f m k =>
  match m k with
  | Some (a, k') => f a k'
  | None => None
  end.

Definition get_head : M nvme_ns_head := fun k => Some (head k, k).

Definition modify_head (f : nvme_ns_head -> nvme_ns_head) : M unit :=
  fun k => Some (tt, set_head (f (head k)) k).

Definition call (e : event) : M unit :=
  fun k => Some (tt, set_log (log k ++ [e]) k).

Definition oops {A} : M A := fun _ => None.

(** [ns->ctrl->state] *)
Definition ns_ctrl_state (k : kernel) (ns : ns_ptr) : nvme_ctrl_state :=
  state (ctrls k (ctrl (namespaces k ns))).

Definition read_ns_ctrl_state (ns : ns_ptr) : M nvme_ctrl_state :=
  fun k => Some (ns_ctrl_state k ns, k).

Definition get_kernel : M kernel := fun k => Some (k, k).

(** *** Collaborators

    The block layer, the workqueue and the allocator are not part of the
    reviewed unit; each is modelled by what it does to the state above and
    by the call it leaves in the log. *)

Definition wrap32 (x : Z) : Z := x `mod` 2 ^ 32.

(** Taking the requeue spinlock while it is held never returns. *)
Definition spin_lock (e : event) : M unit :=
  h ← get_head;
  if requeue_lock h then oops
  else modify_head (set_requeue_lock true);; call e.

Definition spin_unlock (e : event) : M unit :=
  modify_head (set_requeue_lock false);; call e.

Definition bio_list_init : M unit := modify_head (set_requeue_list []).

Definition spin_lock_init : M unit := modify_head (set_requeue_lock false).

Definition INIT_WORK (f : work_func_t) : M unit :=
  modify_head (set_requeue_work (Some f) false).

(** [bio_list_add]: append at the tail. *)
Definition bio_list_add (b : bio) : M unit :=
  modify_head (fun h => set_requeue_list (requeue_list h ++ [b]) h);;
  call (ev_bio_list_add b).

(** [bio_list_get]: hand the whole chain out and leave the list empty. *)
Definition bio_list_get : M (list bio) :=
  h ← get_head;
  modify_head (set_requeue_list []);;
  call (ev_bio_list_get (requeue_list h));;
  mret (requeue_list h).

(** Modelled from the spec: [blk_steal_bios] lives in the block layer.  It
    detaches all I/O buffers owned by the request from the request
    object, appending them to the pending-requeue queue. *)
Definition blk_steal_bios (req : request) : M request :=
  modify_head (fun h => set_requeue_list (requeue_list h ++ rq_bios req) h);;
  call (ev_blk_steal_bios (rq_id req) (rq_bios req));;
  mret (set_rq_bios [] req).

(** Modelled from the spec: the workqueue.  Scheduling sets the pending
    bit of the work item; the drain then runs later, on a background
    execution context. *)
Definition kblockd_schedule_work : M unit :=
  modify_head (fun h => set_requeue_work (requeue_work h) true h);;
  call ev_kblockd_schedule_work.

(** The allocator answers from [allocations]; nothing left is a failure. *)
Definition allocate : M bool := fun k =>
  match allocations k with
  | [] => Some (false, k)
  | ok :: rest => Some (ok, set_allocations rest k)
  end.

(** A queue as [blk_alloc_queue_node] hands it out. *)
Definition fresh_queue : request_queue :=
  {| queuedata_head := false; make_request_fn := None; poll_fn := None;
     QUEUE_FLAG_NONROT := false; QUEUE_FLAG_DYING := false;
     logical_block_size := 0; write_cache := false; fua := false |}.

Definition blk_alloc_queue_node : M (option request_queue) :=
  ok ← allocate; mret (if ok : bool then Some fresh_queue else None).

(** A disk as [alloc_disk] hands it out. *)
Definition fresh_disk : gendisk :=
  {| fops := None; private_data_head := false; disk_queue := None;
     disk_flags := 0; disk_name := EmptyString |}.

Definition alloc_disk : M (option gendisk) :=
  ok ← allocate; mret (if ok : bool then Some fresh_disk else None).

Definition set_QUEUE_FLAG_DYING (q : request_queue) : request_queue :=
  {| queuedata_head := queuedata_head q;
     make_request_fn := make_request_fn q; poll_fn := poll_fn q;
     QUEUE_FLAG_NONROT := QUEUE_FLAG_NONROT q; QUEUE_FLAG_DYING := true;
     logical_block_size := logical_block_size q;
     write_cache := write_cache q; fua := fua q |}.

Definition set_disk_queue (q : request_queue) (d : gendisk) : gendisk :=
  {| fops := fops d; private_data_head := private_data_head d;
     disk_queue := Some q; disk_flags := disk_flags d;
     disk_name := disk_name d |}.

(** [blk_set_queue_dying (head->disk->queue)] *)
Definition blk_set_queue_dying : M unit :=
  h ← get_head;
  match disk h with
  | Some d =>
      match disk_queue d with
      | Some q =>
          modify_head (set_disk (Some (set_disk_queue (set_QUEUE_FLAG_DYING q) d)));;
          call ev_blk_set_queue_dying
      | None => oops
      end
  | None => oops
  end.

(** ** The code of multipath.c *)

Section multipath.
Context `{kernel_headers}.

Definition nvme_failover_req (req : request) : M request :=
  let ns := rq_ns req in
  spin_lock ev_spin_lock_irqsave;;
  req ← blk_steal_bios req;
  spin_unlock ev_spin_unlock_irqrestore;;
  call (ev_blk_mq_end_request (rq_id req) 0);;
  k ← get_kernel;
  call (ev_nvme_reset_ctrl (ctrl (namespaces k ns)));;
  kblockd_schedule_work;;
  mret req.

(** The loop of [__nvme_find_path] over the rest of [head->list]. *)
Fixpoint __nvme_find_path_from (l : list ns_ptr) : M (option ns_ptr) :=
  match l with
  | [] => mret None
  | ns :: rest =>
      st ← read_ns_ctrl_state ns;
      if decide (st = NVME_CTRL_LIVE) then
        modify_head (set_current_path (Some ns));;
        mret (Some ns)
      else __nvme_find_path_from rest
  end.

Definition __nvme_find_path : M (option ns_ptr) :=
  h ← get_head; __nvme_find_path_from (siblings h).

Definition nvme_find_path : M (option ns_ptr) :=
  h ← get_head;
  match current_path h with
  | None => __nvme_find_path
  | Some ns =>
      st ← read_ns_ctrl_state ns;
      if decide (st ≠ NVME_CTRL_LIVE) then __nvme_find_path
      else mret (Some ns)
  end.

Definition nvme_ns_head_make_request (b : bio) : M Z :=
  call ev_srcu_read_lock;;
  ns ← nvme_find_path;
  ret ← match ns with
        | Some ns =>
            let b := set_bi_disk (ns_disk ns) b in
            let b := set_bi_opf (wrap32 (Z.lor (bi_opf b) REQ_NVME_MPATH)) b in
            call (ev_direct_make_request b);;
            k ← get_kernel;
            mret (cookie k b)
        | None =>
            h ← get_head;
            if negb (bool_decide (siblings h = [])) then
              call (ev_dev_warn_ratelimited "no path available - requeuing I/O");;
              spin_lock ev_spin_lock_irq;;
              bio_list_add b;;
              spin_unlock ev_spin_unlock_irq;;
              mret BLK_QC_T_NONE
            else
              call (ev_dev_warn_ratelimited "no path - failing I/O");;
              let b := set_bi_status BLK_STS_IOERR b in
              call (ev_bio_endio b);;
              mret BLK_QC_T_NONE
        end;
  call ev_srcu_read_unlock;;
  mret ret.

Definition nvme_ns_head_poll (qc : Z) : M bool :=
  call ev_srcu_read_lock;;
  h ← get_head;
  found ← match current_path h with
          | Some ns =>
              st ← read_ns_ctrl_state ns;
              if decide (st = NVME_CTRL_LIVE) then
                call (ev_queue_poll_fn ns qc);;
                k ← get_kernel;
                mret (poll_answer k ns qc)
              else mret false
          | None => mret false
          end;
  call ev_srcu_read_unlock;;
  mret found.

(** Modelled from the spec: [generic_make_request] lives in the block
    layer.  It is the normal entry point: a buffer aimed at the aggregate
    device goes to the routing function registered on its queue, and so
    through the selector again; once the queue is marked terminating new
    requests are rejected, the buffer ends with an I/O error.  A buffer
    aimed at a path's own disk leaves this file. *)
Definition generic_make_request (b : bio) : M unit :=
  call (ev_generic_make_request b);;
  match bi_disk b with
  | ns_disk _ => mret tt
  | head_disk =>
      h ← get_head;
      match disk h with
      | None => oops
      | Some d =>
          match disk_queue d with
          | None => oops
          | Some q =>
              if QUEUE_FLAG_DYING q then
                call (ev_bio_endio (set_bi_status BLK_STS_IOERR b))
              else
                match make_request_fn q with
                | Some fn_nvme_ns_head_make_request =>
                    nvme_ns_head_make_request b;; mret tt
                | None => oops
                end
          end
      end
  end.

(** The while loop of [nvme_requeue_work] over the chain [next]. *)
Fixpoint nvme_requeue_work_loop (next : list bio) : M unit :=
  match next with
  | [] => mret tt
  | b :: next =>
      let b := set_bi_disk head_disk b in
      generic_make_request b;;
      nvme_requeue_work_loop next
  end.

Definition nvme_requeue_work : M unit :=
  spin_lock ev_spin_lock_irq;;
  next ← bio_list_get;
  spin_unlock ev_spin_unlock_irq;;
  nvme_requeue_work_loop next.

(** Modelled from the spec: [flush_work] lives in the workqueue.  It
    forces the drain synchronously: a pending work item runs to the end
    before [flush_work] returns. *)
Definition flush_work : M unit :=
  call ev_flush_work;;
  h ← get_head;
  if requeue_work_pending h then
    modify_head (set_requeue_work (requeue_work h) false);;
    match requeue_work h with
    | Some fn_nvme_requeue_work => nvme_requeue_work
    | None => oops
    end
  else mret tt.

Definition nvme_mpath_alloc_disk (c : ctrl_ptr) : M Z :=
  bio_list_init;;
  spin_lock_init;;
  INIT_WORK fn_nvme_requeue_work;;
  k ← get_kernel;
  if bool_decide (Z.land (cmic (subsys (ctrls k c))) (Z.shiftl 1 1) = 0)
     || negb (multipath k)
  then mret 0
  else
    q ← blk_alloc_queue_node;
    match q with
    | None => mret (- ENOMEM)
    | Some q =>
        let vwc := bool_decide (Z.land (vwc (ctrls k c)) NVME_CTRL_VWC_PRESENT ≠ 0) in
        let q :=
          {| queuedata_head := true;
             make_request_fn := Some fn_nvme_ns_head_make_request;
             poll_fn := Some fn_nvme_ns_head_poll;
             QUEUE_FLAG_NONROT := true;
             QUEUE_FLAG_DYING := QUEUE_FLAG_DYING q;
             logical_block_size := 512;
             write_cache := vwc; fua := vwc |} in
        d ← alloc_disk;
        modify_head (set_disk d);;
        match d with
        | None => call ev_blk_cleanup_queue;; mret (- ENOMEM)
        | Some d =>
            h ← get_head;
            modify_head (set_disk (Some
              {| fops := Some nvme_ns_head_ops;
                 private_data_head := true;
                 disk_queue := Some q;
                 disk_flags := GENHD_FL_EXT_DEVT;
                 disk_name := "nvme" +:+ pretty (subsys_instance (subsys (ctrls k c)))
                              +:+ "n" +:+ pretty (instance h) |}));;
            mret 0
        end
    end.

Definition nvme_mpath_remove_disk : M unit :=
  h ← get_head;
  match disk h with
  | None => mret tt
  | Some _ =>
      call ev_sysfs_remove_group;;
      call ev_del_gendisk;;
      blk_set_queue_dying;;
      kblockd_schedule_work;;
      flush_work;;
      call ev_blk_cleanup_queue;;
      call ev_put_disk
  end.

End multipath.

(** ** The constants of the kernel tree

    The values of include/linux/nvme.h, include/linux/blk_types.h,
    include/linux/genhd.h and errno.h; [REQ_NVME_MPATH] is [REQ_DRV],
    bit 23 of the flags word. *)
Definition linux_headers : kernel_headers :=
  {| REQ_NVME_MPATH := Z.shiftl 1 23;
     BLK_QC_T_NONE := 4294967295;
     BLK_STS_IOERR := 10;
     NVME_SC_INVALID_OPCODE := 0x1;
     NVME_SC_INVALID_FIELD := 0x2;
     NVME_SC_INVALID_NS := 0xb;
     NVME_SC_LBA_RANGE := 0x80;
     NVME_SC_CAP_EXCEEDED := 0x81;
     NVME_SC_RESERVATION_CONFLICT := 0x83;
     NVME_SC_BAD_ATTRIBUTES := 0x180;
     NVME_SC_INVALID_PI := 0x181;
     NVME_SC_READ_ONLY := 0x182;
     NVME_SC_ONCS_NOT_SUPPORTED := 0x183;
     NVME_SC_WRITE_FAULT := 0x280;
     NVME_SC_READ_ERROR := 0x281;
     NVME_SC_GUARD_CHECK := 0x282;
     NVME_SC_APPTAG_CHECK := 0x283;
     NVME_SC_REFTAG_CHECK := 0x284;
     NVME_SC_COMPARE_FAILED := 0x285;
     NVME_SC_ACCESS_DENIED := 0x286;
     NVME_SC_UNWRITTEN_BLOCK := 0x287;
     nvme_fabrics_command := 0x7f;
     NVME_CTRL_VWC_PRESENT := Z.shiftl 1 0;
     GENHD_FL_EXT_DEVT := 0x40;
     ENOMEM := 12;
     REQ_NVME_MPATH_flag := conj eq_refl eq_refl |}.

(** [NVME_SC_DNR], the do-not-retry bit of the status field, and the
    status a timed-out command is completed with
    ([NVME_SC_ABORT_REQ]). *)
Definition NVME_SC_DNR : Z := 0x4000.
Definition NVME_SC_ABORT_REQ : Z := 0x7.

(** A completed request with the given flags and status. *)
Definition completed (flags st : Z) : request :=
  {| rq_id := 0%nat; cmd_flags := flags; status := st; opcode := 0x1;
     rq_bios := []; rq_ns := 0%nat |}.

Definition set_status (st : Z) (r : request) : request :=
  {| rq_id := rq_id r; cmd_flags := cmd_flags r; status := st;
     opcode := opcode r; rq_bios := rq_bios r; rq_ns := rq_ns r |}.

(** A path is live when the controller behind it is. *)
Definition live (k : kernel) (ns : ns_ptr) : Prop :=
  ns_ctrl_state k ns = NVME_CTRL_LIVE.

#[global] Instance live_dec k ns : Decision (live k ns).
Proof. unfold live. apply _. Defined.

(** [ns] is the first live path of [l] in list order. *)
Definition first_live (k : kernel) (l : list ns_ptr) (ns : ns_ptr) : Prop :=
  exists i : nat,
    l !! i = Some ns /\ live k ns /\
    forall (j : nat) (p : ns_ptr), l !! j = Some p -> (j < i)%nat -> ~ live k p.

(** The kernel state once [ns] is installed as the cached path. *)
Definition install (ns : ns_ptr) (k : kernel) : kernel :=
  set_head (set_current_path (Some ns) (head k)) k.

(** ** Running the monad in proofs *)

Ltac unfold_prims :=
  unfold spin_lock, spin_unlock, blk_steal_bios, kblockd_schedule_work,
    bio_list_add, bio_list_get, bio_list_init, spin_lock_init, INIT_WORK,
    blk_set_queue_dying, blk_alloc_queue_node, alloc_disk, allocate,
    read_ns_ctrl_state.

Ltac unfold_monad :=
  unfold mbind, M_bind, mret, M_ret, get_head, get_kernel, modify_head,
    call, oops.

Ltac run := unfold_prims; unfold_monad; cbn.

(** The bio as the fast path of [nvme_ns_head_make_request] sends it
    down the path [ns]. *)
Definition routed_bio `{kernel_headers} (ns : ns_ptr) (b : bio) : bio :=
  set_bi_opf (wrap32 (Z.lor (bi_opf b) REQ_NVME_MPATH))
    (set_bi_disk (ns_disk ns) b).

(** The bio as it is ended with an I/O error. *)
Definition failed_bio `{kernel_headers} (b : bio) : bio :=
  set_bi_status BLK_STS_IOERR b.

(** The bios handed to [generic_make_request] in a stretch of the log,
    and the bios added to the pending-requeue queue in it. *)
Definition resubmitted (evs : list event) : list bio :=
  omap (fun e => match e with
                 | ev_generic_make_request b => Some b
                 | _ => None
                 end) evs.

Definition enqueued (evs : list event) : list bio :=
  omap (fun e => match e with
                 | ev_bio_list_add b => Some b
                 | _ => None
                 end) evs.

(** The aggregate device is up: its queue exists, is not terminating and
    has the routing function registered; the requeue lock is free. *)
Definition can_route (k : kernel) : Prop :=
  requeue_lock (head k) = false /\
  exists (d : gendisk) (q : request_queue),
    disk (head k) = Some d /\ disk_queue d = Some q /\
    QUEUE_FLAG_DYING q = false /\
    make_request_fn q = Some fn_nvme_ns_head_make_request.

(** What the drain leaves in the log for the chain [next] once the queue
    of the aggregate device is terminating: each bio is resubmitted and
    ends with an I/O error. *)
Definition terminal_failures `{kernel_headers} (next : list bio) : list event :=
  flat_map (fun b =>
              [ev_generic_make_request (set_bi_disk head_disk b);
               ev_bio_endio (failed_bio (set_bi_disk head_disk b))]) next.

(** The queue and the disk [nvme_mpath_alloc_disk] sets up for the
    controller [c]. *)
Definition mpath_queue `{kernel_headers} (k : kernel) (c : ctrl_ptr) : request_queue :=
  let vwc := bool_decide (Z.land (vwc (ctrls k c)) NVME_CTRL_VWC_PRESENT ≠ 0) in
  {| queuedata_head := true;
     make_request_fn := Some fn_nvme_ns_head_make_request;
     poll_fn := Some fn_nvme_ns_head_poll;
     QUEUE_FLAG_NONROT := true;
     QUEUE_FLAG_DYING := false;
     logical_block_size := 512;
     write_cache := vwc; fua := vwc |}.

Definition mpath_disk `{kernel_headers} (k : kernel) (c : ctrl_ptr) : gendisk :=
  {| fops := Some nvme_ns_head_ops;
     private_data_head := true;
     disk_queue := Some (mpath_queue k c);
     disk_flags := GENHD_FL_EXT_DEVT;
     disk_name := "nvme" +:+ pretty (subsys_instance (subsys (ctrls k c)))
                  +:+ "n" +:+ pretty (instance (head k)) |}.

(** The subsystem of [c] reports multiple controllers (CMIC bit 1) and
    the module parameter is on. *)
Definition aggregation_wanted (k : kernel) (c : ctrl_ptr) : Prop :=
  Z.land (cmic (subsys (ctrls k c))) (Z.shiftl 1 1) ≠ 0 /\ multipath k = true.

#[global] Instance aggregation_wanted_dec k c : Decision (aggregation_wanted k c).
Proof. unfold aggregation_wanted. apply _. Defined.

(** ** A head with two paths

    The namespace head of the scenarios: the paths [path_A] and [path_B],
    in this order, behind the controllers of the same number, on a
    subsystem that reports multiple controllers. *)
Definition path_A : ns_ptr := 1%nat.
Definition path_B : ns_ptr := 2%nat.

Definition ctrl_in (st : nvme_ctrl_state) : nvme_ctrl :=
  {| state := st;
     subsys := {| subsys_instance := 0; cmic := 2 |};
     vwc := 1 |}.

Definition ctrls_in (sa sb : nvme_ctrl_state) (c : ctrl_ptr) : nvme_ctrl :=
  if decide (c = path_A) then ctrl_in sa else ctrl_in sb.

Definition sample_queue : request_queue :=
  {| queuedata_head := true;
     make_request_fn := Some fn_nvme_ns_head_make_request;
     poll_fn := Some fn_nvme_ns_head_poll;
     QUEUE_FLAG_NONROT := true; QUEUE_FLAG_DYING := false;
     logical_block_size := 512; write_cache := true; fua := true |}.

Definition sample_disk : gendisk :=
  {| fops := Some nvme_ns_head_ops; private_data_head := true;
     disk_queue := Some sample_queue; disk_flags := 0x40;
     disk_name := "nvme0n1" |}.

Definition sample_bio (n : nat) : bio :=
  {| bi_id := n; bi_disk := ns_disk path_A; bi_opf := 0; bi_status := 0 |}.

Definition sample_head (paths : list ns_ptr) (cache : option ns_ptr)
    (pending : list bio) (d : option gendisk) : nvme_ns_head :=
  {| siblings := paths; current_path := cache; requeue_list := pending;
     requeue_lock := false; requeue_work := Some fn_nvme_requeue_work;
     requeue_work_pending := false; disk := d; instance := 1 |}.

Definition sample_kernel (sa sb : nvme_ctrl_state) (h : nvme_ns_head) : kernel :=
  {| multipath := true;
     ctrls := ctrls_in sa sb;
     namespaces := fun ns => {| ctrl := ns |};
     head := h;
     allocations := [true; true];
     cookie := fun b => Z.of_nat (bi_id b);
     poll_answer := fun _ _ => true;
     log := [] |}.

(** [path_A] live and [path_B] down, nothing cached yet. *)
Definition kernel_A_live : kernel :=
  sample_kernel NVME_CTRL_LIVE NVME_CTRL_DEAD
    (sample_head [path_A; path_B] None [] (Some sample_disk)).

(** [path_A] cached, but its controller is reconnecting; [path_B] live. *)
Definition kernel_A_stale : kernel :=
  sample_kernel NVME_CTRL_RECONNECTING NVME_CTRL_LIVE
    (sample_head [path_A; path_B] (Some path_A) [] (Some sample_disk)).

(** The same once [path_B] has been installed in the cache. *)
Definition kernel_A_stale_B_cached : kernel :=
  sample_kernel NVME_CTRL_RECONNECTING NVME_CTRL_LIVE
    (sample_head [path_A; path_B] (Some path_B) [] (Some sample_disk)).

(** A head that has lost all its paths while the cache still names
    [path_A], whose controller is live. *)
Definition kernel_orphan_cache : kernel :=
  sample_kernel NVME_CTRL_LIVE NVME_CTRL_DEAD
    (sample_head [] (Some path_A) [] (Some sample_disk)).

(** Both controllers down and two bios waiting. *)
Definition kernel_all_down : kernel :=
  sample_kernel NVME_CTRL_RECONNECTING NVME_CTRL_DEAD
    (sample_head [path_A; path_B] (Some path_A)
       [sample_bio 7; sample_bio 8] (Some sample_disk)).

(** No path at all. *)
Definition kernel_no_path : kernel :=
  sample_kernel NVME_CTRL_DEAD NVME_CTRL_DEAD
    (sample_head [] None [] (Some sample_disk)).

(** A head that has not been brought up: no aggregate device. *)
Definition kernel_fresh : kernel :=
  sample_kernel NVME_CTRL_LIVE NVME_CTRL_LIVE
    (sample_head [path_A; path_B] None [] None).

(** A request that failed on [path_A] with two bios. *)
Definition failed_request : request :=
  {| rq_id := 5%nat; cmd_flags := Z.shiftl 1 23; status := 0x4007;
     opcode := 0x2; rq_bios := [sample_bio 7; sample_bio 8];
     rq_ns := path_A |}.

(** ** The rest of multipath.c *)

(** [struct nvme_ctrl], the numbers that go into device names. *)
Record nvme_ctrl_numbers := {
  ctrl_instance : Z;
  cntlid : Z
}.

Section naming.
(** linux/genhd.h *)
Variable GENHD_FL_HIDDEN : Z.

(** [nvme_set_disk_name]: the name written to [disk_name] and the value
    [*flags] holds afterwards.  [numbers] gives [ctrl->instance] and
    [ctrl->cntlid]; [%d] prints as [pretty] does. *)
Definition nvme_set_disk_name (k : kernel)
    (numbers : ctrl_ptr -> nvme_ctrl_numbers) (c : ctrl_ptr) (flags : Z)
    : string * Z :=
  if negb (multipath k) then
    ("nvme" +:+ pretty (ctrl_instance (numbers c)) +:+ "n"
       +:+ pretty (instance (head k)), flags)
  else
    match disk (head k) with
    | Some _ =>
        ("nvme" +:+ pretty (subsys_instance (subsys (ctrls k c))) +:+ "c"
           +:+ pretty (cntlid (numbers c)) +:+ "n"
           +:+ pretty (instance (head k)), GENHD_FL_HIDDEN)
    | None =>
        ("nvme" +:+ pretty (subsys_instance (subsys (ctrls k c))) +:+ "n"
           +:+ pretty (instance (head k)), flags)
    end.

End naming.

(** Calls [nvme_mpath_add_disk] makes. *)
Inductive publish_event :=
  | ev_device_add_disk
  | ev_sysfs_create_group
  | ev_pr_warn (msg : string).

(** [nvme_mpath_add_disk]: [sysfs_create_group_ret] is what
    [sysfs_create_group] answers.  The head is only read. *)
Definition nvme_mpath_add_disk (sysfs_create_group_ret : Z)
    (h : nvme_ns_head) : list publish_event :=
  match disk h with
  | None => []
  | Some d =>
      [ev_device_add_disk; ev_sysfs_create_group] ++
      (if decide (sysfs_create_group_ret ≠ 0) then
         [ev_pr_warn (disk_name d +:+
                      ": failed to create sysfs group for identification")]
       else [])
  end.

(** *** Several heads

    [nvme_kick_requeue_lists] walks the namespaces of one controller, each
    with a head of its own. *)
Definition head_ptr := nat.

Inductive kick_event :=
  | ev_mutex_lock (c : ctrl_ptr)
  | ev_mutex_unlock (c : ctrl_ptr)
  | ev_kblockd_schedule_work_of (h : head_ptr).

#[global] Instance kick_event_eq_dec : EqDecision kick_event.
Proof. solve_decision. Defined.

(** [ctrl_namespaces c] is the list [ctrl->namespaces], [ns_head] is
    [ns->head], [heads] the heads behind the pointers. *)
Record topology := {
  ctrl_namespaces : ctrl_ptr -> list ns_ptr;
  ns_head : ns_ptr -> head_ptr;
  heads : head_ptr -> nvme_ns_head;
  kick_log : list kick_event
}.

Definition set_heads (hs : head_ptr -> nvme_ns_head) (l : list kick_event)
    (t : topology) : topology :=
  {| ctrl_namespaces := ctrl_namespaces t; ns_head := ns_head t;
     heads := hs; kick_log := l |}.

(** The body of [list_for_each_entry] in [nvme_kick_requeue_lists]. *)
Fixpoint nvme_kick_requeue_lists_from (l : list ns_ptr) (t : topology)
    : topology :=
  match l with
  | [] => t
  | ns :: rest =>
      let h := ns_head t ns in
      let t :=
        match disk (heads t h) with
        | Some _ =>
            set_heads
              (<[h := set_requeue_work (requeue_work (heads t h)) true
                        (heads t h)]> (heads t))
              (kick_log t ++ [ev_kblockd_schedule_work_of h]) t
        | None => t
        end in
      nvme_kick_requeue_lists_from rest t
  end.

Definition nvme_kick_requeue_lists (c : ctrl_ptr) (t : topology) : topology :=
  let t := set_heads (heads t) (kick_log t ++ [ev_mutex_lock c]) t in
  let t := nvme_kick_requeue_lists_from (ctrl_namespaces t c) t in
  set_heads (heads t) (kick_log t ++ [ev_mutex_unlock c]) t.

(** ** Sequences of calls *)

(** What the selector returns and the state it leaves, as functions of
    the state. *)
Definition scanned (k : kernel) : option ns_ptr :=
  snd <$> list_find (live k) (siblings (head k)).

Definition cache_hit (k : kernel) : option ns_ptr :=
  match current_path (head k) with
  | Some c => if decide (live k c) then Some c else None
  | None => None
  end.

Definition selected (k : kernel) : option ns_ptr :=
  match cache_hit k with
  | Some c => Some c
  | None => scanned k
  end.

Definition after_select (k : kernel) : kernel :=
  match cache_hit k with
  | Some _ => k
  | None =>
      match scanned k with
      | Some ns => install ns k
      | None => k
      end
  end.

(** The cached path, if any, is a path of the set. *)
Definition cache_in_set (k : kernel) : Prop :=
  forall c, current_path (head k) = Some c -> c ∈ siblings (head k).

(** The bios handed to [direct_make_request] and to [bio_endio] in a
    stretch of the log. *)
Definition dispatched (evs : list event) : list bio :=
  omap (fun e => match e with
                 | ev_direct_make_request b => Some b
                 | _ => None
                 end) evs.

Definition ended (evs : list event) : list bio :=
  omap (fun e => match e with
                 | ev_bio_endio b => Some b
                 | _ => None
                 end) evs.

(** The buffers the state accounts for: waiting, sent down a path, or
    ended. *)
Definition accounted (k : kernel) : list nat :=
  map bi_id (requeue_list (head k)) ++ map bi_id (dispatched (log k)) ++
  map bi_id (ended (log k)).

(** What one resubmission of the drain logs when the path [ns] takes
    the bio, and when no path of an empty set does. *)
Definition dispatch_trace `{kernel_headers} (ns : ns_ptr) (next : list bio)
    : list event :=
  flat_map (fun b =>
              [ev_generic_make_request (set_bi_disk head_disk b);
               ev_srcu_read_lock;
               ev_direct_make_request
                 (routed_bio ns (set_bi_disk head_disk b));
               ev_srcu_read_unlock]) next.

Definition requeue_trace (next : list bio) : list event :=
  flat_map (fun b =>
              [ev_generic_make_request (set_bi_disk head_disk b);
               ev_srcu_read_lock;
               ev_dev_warn_ratelimited "no path available - requeuing I/O";
               ev_spin_lock_irq;
               ev_bio_list_add (set_bi_disk head_disk b);
               ev_spin_unlock_irq;
               ev_srcu_read_unlock]) next.

Definition no_path_trace `{kernel_headers} (next : list bio) : list event :=
  flat_map (fun b =>
              [ev_generic_make_request (set_bi_disk head_disk b);
               ev_srcu_read_lock;
               ev_dev_warn_ratelimited "no path - failing I/O";
               ev_bio_endio (failed_bio (set_bi_disk head_disk b));
               ev_srcu_read_unlock]) next.

(** What the invariant of the sequences says of one state against the
    state before: the device still routes, the cache still points into
    the set, the set and the device are the same, and the buffers
    accounted for are those of before and those that came in. *)
Definition step_ok (k k' : kernel) (incoming : list nat) : Prop :=
  can_route k' /\ cache_in_set k' /\
  siblings (head k') = siblings (head k) /\
  disk (head k') = disk (head k) /\
  accounted k' ≡ₚ accounted k ++ incoming.

(** The entry points a user of the aggregate device and the driver core
    reach, and what the controllers do in between. *)
Inductive api_call :=
  | api_make_request (b : bio)
  | api_failover_req (req : request)
  | api_requeue_work
  | api_poll (qc : Z)
  | api_find_path
  | env_ctrls (c : ctrl_ptr -> nvme_ctrl).

Section calls.
Context `{kernel_headers}.

Definition run_call (c : api_call) : M unit :=
  match c with
  | api_make_request b => nvme_ns_head_make_request b;; mret tt
  | api_failover_req req => nvme_failover_req req;; mret tt
  | api_requeue_work => nvme_requeue_work
  | api_poll qc => nvme_ns_head_poll qc;; mret tt
  | api_find_path => nvme_find_path;; mret tt
  | env_ctrls c => fun k => Some (tt, set_ctrls c k)
  end.

Fixpoint run_calls (cs : list api_call) : M unit :=
  match cs with
  | [] => mret tt
  | c :: cs => run_call c;; run_calls cs
  end.

(** The buffers a call brings in. *)
Definition entering (c : api_call) : list nat :=
  match c with
  | api_make_request b => [bi_id b]
  | api_failover_req req => map bi_id (rq_bios req)
  | _ => []
  end.

End calls.

(** ** Device names *)

(** The characters [%d] prints. *)
Definition numeric_char (c : ascii) : bool :=
  bool_decide (c ∈ ["-"; "0"; "1"; "2"; "3"; "4"; "5"; "6"; "7"; "8"; "9"]%char).

Fixpoint numeric (s : string) : Prop :=
  match s with
  | EmptyString => True
  | String c s => numeric_char c = true /\ numeric s
  end.

(** The two name formats: [nvme%dn%d] and [nvme%dc%dn%d]. *)
Definition node_name (a b : Z) : string :=
  "nvme" +:+ pretty a +:+ "n" +:+ pretty b.

Definition path_name (a c b : Z) : string :=
  "nvme" +:+ pretty a +:+ "c" +:+ pretty c +:+ "n" +:+ pretty b.

(** A head once its requeue work has been scheduled. *)
Definition kicked (h : nvme_ns_head) : nvme_ns_head :=
  set_requeue_work (requeue_work h) true h.

(** The heads [nvme_kick_requeue_lists] reaches from the controller [c]:
    those of its namespaces that have an aggregate device. *)
Definition kick_targets (t : topology) (l : list ns_ptr) : list head_ptr :=
  filter (fun h => is_Some (disk (heads t h))) (map (ns_head t) l).

(** The head as [nvme_mpath_alloc_disk] initialises its requeue state. *)
Definition initialised (h : nvme_ns_head) : nvme_ns_head :=
  set_requeue_work (Some fn_nvme_requeue_work) false
    (set_requeue_lock false (set_requeue_list [] h)).

(** Two bios waiting and [path_B] live again. *)
Definition kernel_B_back : kernel :=
  set_ctrls (ctrls_in NVME_CTRL_RECONNECTING NVME_CTRL_LIVE) kernel_all_down.

(** Two bios waiting on a head that has lost all its paths. *)
Definition kernel_no_path_pending : kernel :=
  sample_kernel NVME_CTRL_DEAD NVME_CTRL_DEAD
    (sample_head [] None [sample_bio 7; sample_bio 8] (Some sample_disk)).

(** The numbers of the controllers of the scenarios. *)
Definition sample_numbers (c : ctrl_ptr) : nvme_ctrl_numbers :=
  {| ctrl_instance := Z.of_nat c; cntlid := Z.of_nat c + 10 |}.

(** One controller with three namespaces: two on the head 0, which has
    an aggregate device, one on the head 1, which has none; head 2
    belongs to another controller. *)
Definition sample_topology : topology :=
  {| ctrl_namespaces := fun c => if decide (c = path_A) then [1; 2; 3]%nat else [];
     ns_head := fun ns => if decide (ns = 3%nat) then 1%nat else 0%nat;
     heads := fun h =>
       if decide (h = 1%nat) then sample_head [] None [] None
       else sample_head [path_A; path_B] None [sample_bio 7] (Some sample_disk);
     kick_log := [] |}.

(** * Properties *)

Section classifier_properties.
Context `{kernel_headers}.

Lemma needs_failover_unfold (req : request) :
  nvme_req_needs_failover req =
    bool_decide (mpath_routed (cmd_flags req)) &&
    bool_decide (Z.land (status req) 0x7ff ∉ unretryable_status).
Proof.
  unfold nvme_req_needs_failover, nvme_req_needs_failover_body,
    mpath_routed, unretryable_status.
  destruct (decide (Z.land (cmd_flags req) REQ_NVME_MPATH = 0)) as [E|E].
  - rewrite (bool_decide_eq_false_2 (Z.land _ _ ≠ 0)) by tauto. reflexivity.
  - rewrite (bool_decide_eq_true_2 _ E). cbn [andb].
    repeat case_decide; cbn [fst]; symmetry;
      first [ apply bool_decide_eq_false_2 | apply bool_decide_eq_true_2 ];
      rewrite !elem_of_app; tauto.
Qed.

(** C1. The verdict of [nvme_req_needs_failover] is a function of the
    multipath tag and of the status code (the status field under the mask
    0x7ff) alone: two requests that agree on both get the same verdict,
    whatever else they carry.  A request without the tag gets false; a
    tagged request whose status code is one of the case labels
    (invalid opcode, invalid field, invalid namespace, LBA out of range,
    capacity exceeded, reservation conflict, bad attributes, invalid
    protection information, read only, ONCS not supported, write fault,
    read error, guard / application tag / reference tag check, compare
    failed, access denied, unwritten block) gets false; a tagged request
    with any other status code gets true. *)
Theorem needs_failover_classification :
  (forall r1 r2 : request,
      (mpath_routed (cmd_flags r1) <-> mpath_routed (cmd_flags r2)) ->
      Z.land (status r1) 0x7ff = Z.land (status r2) 0x7ff ->
      nvme_req_needs_failover r1 = nvme_req_needs_failover r2) /\
  (forall req : request,
      ~ mpath_routed (cmd_flags req) ->
      nvme_req_needs_failover req = false) /\
  (forall req : request,
      mpath_routed (cmd_flags req) ->
      Z.land (status req) 0x7ff ∈
        [NVME_SC_INVALID_OPCODE; NVME_SC_INVALID_FIELD; NVME_SC_INVALID_NS;
         NVME_SC_LBA_RANGE; NVME_SC_CAP_EXCEEDED;
         NVME_SC_RESERVATION_CONFLICT;
         NVME_SC_BAD_ATTRIBUTES; NVME_SC_INVALID_PI; NVME_SC_READ_ONLY;
         NVME_SC_ONCS_NOT_SUPPORTED;
         NVME_SC_WRITE_FAULT; NVME_SC_READ_ERROR; NVME_SC_GUARD_CHECK;
         NVME_SC_APPTAG_CHECK; NVME_SC_REFTAG_CHECK; NVME_SC_COMPARE_FAILED;
         NVME_SC_ACCESS_DENIED; NVME_SC_UNWRITTEN_BLOCK] ->
      nvme_req_needs_failover req = false) /\
  (forall req : request,
      mpath_routed (cmd_flags req) ->
      Z.land (status req) 0x7ff ∉
        [NVME_SC_INVALID_OPCODE; NVME_SC_INVALID_FIELD; NVME_SC_INVALID_NS;
         NVME_SC_LBA_RANGE; NVME_SC_CAP_EXCEEDED;
         NVME_SC_RESERVATION_CONFLICT;
         NVME_SC_BAD_ATTRIBUTES; NVME_SC_INVALID_PI; NVME_SC_READ_ONLY;
         NVME_SC_ONCS_NOT_SUPPORTED;
         NVME_SC_WRITE_FAULT; NVME_SC_READ_ERROR; NVME_SC_GUARD_CHECK;
         NVME_SC_APPTAG_CHECK; NVME_SC_REFTAG_CHECK; NVME_SC_COMPARE_FAILED;
         NVME_SC_ACCESS_DENIED; NVME_SC_UNWRITTEN_BLOCK] ->
      nvme_req_needs_failover req = true).
Proof.
  repeat split.
  - intros r1 r2 Htag Hsc. rewrite !needs_failover_unfold, Hsc.
    f_equal. apply bool_decide_ext, Htag.
  - intros req Htag. rewrite needs_failover_unfold.
    rewrite (bool_decide_eq_false_2 _ Htag). reflexivity.
  - intros req Htag Hsc. rewrite needs_failover_unfold.
    rewrite (bool_decide_eq_true_2 _ Htag). cbn [andb].
    apply bool_decide_eq_false_2. intros Hn. apply Hn, Hsc.
  - intros req Htag Hsc. rewrite needs_failover_unfold.
    rewrite (bool_decide_eq_true_2 _ Htag). cbn [andb].
    apply bool_decide_eq_true_2, Hsc.
Qed.

(** C9. Only the low 11 bits of the status field reach the switch: the
    verdict for a status [s] is the verdict for [s & 0x7ff], and two
    multipath-tagged requests whose status fields agree in their low 11
    bits get the same verdict. *)
Theorem needs_failover_low_11_bits :
  (forall req : request,
      nvme_req_needs_failover (set_status (Z.land (status req) 0x7ff) req) =
      nvme_req_needs_failover req) /\
  (forall r1 r2 : request,
      mpath_routed (cmd_flags r1) -> mpath_routed (cmd_flags r2) ->
      Z.land (status r1) 0x7ff = Z.land (status r2) 0x7ff ->
      nvme_req_needs_failover r1 = nvme_req_needs_failover r2).
Proof.
  split.
  - intros req. rewrite !needs_failover_unfold. cbn [set_status cmd_flags status].
    rewrite <- Z.land_assoc, Z.land_diag. reflexivity.
  - intros r1 r2 H1 H2 Hsc. rewrite !needs_failover_unfold, Hsc.
    rewrite (bool_decide_eq_true_2 _ H1), (bool_decide_eq_true_2 _ H2).
    reflexivity.
Qed.

End classifier_properties.

Section selector_properties.

Lemma find_path_from_spec (l : list ns_ptr) (k : kernel) :
  __nvme_find_path_from l k =
    Some (match list_find (live k) l with
          | Some (_, ns) => (Some ns, install ns k)
          | None => (None, k)
          end).
Proof.
  induction l as [|ns rest IH]; [reflexivity|].
  cbn [__nvme_find_path_from list_find].
  unfold mbind, M_bind, read_ns_ctrl_state. unfold live at 1.
  destruct (decide (ns_ctrl_state k ns = NVME_CTRL_LIVE)) as [E|E].
  - reflexivity.
  - rewrite IH. destruct (list_find (live k) rest) as [[i p]|]; reflexivity.
Qed.

Lemma find_path_scan (k : kernel) :
  (forall c, current_path (head k) = Some c -> ~ live k c) ->
  nvme_find_path k = __nvme_find_path_from (siblings (head k)) k.
Proof.
  intros Hstale. unfold nvme_find_path, __nvme_find_path, mbind, M_bind, get_head.
  destruct (current_path (head k)) as [c|] eqn:Ec; [|reflexivity].
  unfold read_ns_ctrl_state.
  destruct (decide (ns_ctrl_state k c ≠ NVME_CTRL_LIVE)) as [E|E]; [reflexivity|].
  exfalso. apply (Hstale c eq_refl). unfold live.
  destruct (decide (ns_ctrl_state k c = NVME_CTRL_LIVE)); tauto.
Qed.

Lemma find_path_cached (k : kernel) (c : ns_ptr) :
  current_path (head k) = Some c -> live k c ->
  nvme_find_path k = Some (Some c, k).
Proof.
  intros Ec Hc. unfold nvme_find_path, mbind, M_bind, get_head.
  rewrite Ec. unfold read_ns_ctrl_state.
  destruct (decide (ns_ctrl_state k c ≠ NVME_CTRL_LIVE)) as [E|E]; [|reflexivity].
  destruct (E Hc).
Qed.

Lemma list_find_first_live (k : kernel) (l : list ns_ptr) (i : nat) (ns : ns_ptr) :
  list_find (live k) l = Some (i, ns) -> first_live k l ns.
Proof.
  intros Hf. apply list_find_Some in Hf as (Hi & Hl & Hbefore).
  exists i. repeat split; [assumption..|]. intros j p Hj Hlt. eauto.
Qed.

Lemma list_find_none_live (k : kernel) (l : list ns_ptr) :
  list_find (live k) l = None -> forall p, p ∈ l -> ~ live k p.
Proof.
  intros Hf p Hp. apply list_find_None in Hf.
  rewrite Forall_forall in Hf. apply Hf, Hp.
Qed.

(** What a scan does, in the terms of the path set. *)
Lemma find_path_scan_cases (k : kernel) :
  (forall c, current_path (head k) = Some c -> ~ live k c) ->
  (exists ns, nvme_find_path k = Some (Some ns, install ns k) /\
              first_live k (siblings (head k)) ns) \/
  (nvme_find_path k = Some (None, k) /\
   forall p, p ∈ siblings (head k) -> ~ live k p).
Proof.
  intros Hstale. rewrite (find_path_scan k Hstale), find_path_from_spec.
  destruct (list_find (live k) (siblings (head k))) as [[i ns]|] eqn:Ef.
  - left. exists ns. split; [reflexivity|]. eapply list_find_first_live, Ef.
  - right. split; [reflexivity|]. apply list_find_none_live, Ef.
Qed.

Lemma first_live_elem (k : kernel) (l : list ns_ptr) (ns : ns_ptr) :
  first_live k l ns -> ns ∈ l /\ live k ns.
Proof.
  intros (i & Hi & Hl & _). split; [|assumption].
  apply list_elem_of_lookup. eauto.
Qed.

(** The cache is looked at first; it is either stale (or empty) or live. *)
Lemma cache_stale_or_live (k : kernel) :
  (forall c, current_path (head k) = Some c -> ~ live k c) \/
  (exists c, current_path (head k) = Some c /\ live k c).
Proof.
  destruct (current_path (head k)) as [c|]; [|left; congruence].
  destruct (decide (live k c)) as [Hc|Hc].
  - right. eauto.
  - left. intros c' [= <-]. assumption.
Qed.

(** The result of the selector and the state it leaves, in one place. *)
Lemma find_path_summary (k : kernel) :
  exists (r : option ns_ptr) (k1 : kernel),
    nvme_find_path k = Some (r, k1) /\
    (forall ns, r = Some ns -> live k ns) /\
    (k1 = k \/ exists ns, r = Some ns /\ k1 = install ns k) /\
    (r = None <->
       (forall c, current_path (head k) = Some c -> ~ live k c) /\
       (forall p, p ∈ siblings (head k) -> ~ live k p)).
Proof.
  destruct (cache_stale_or_live k) as [Hstale|(c & Ec & Hc)].
  - destruct (find_path_scan_cases k Hstale) as [(ns & E & Hfirst)|(E & Hnone)].
    + destruct (first_live_elem _ _ _ Hfirst) as [Hin Hlive].
      exists (Some ns), (install ns k). split; [exact E|]. split; [|split].
      * intros ? [= <-]. exact Hlive.
      * right. eauto.
      * split; [discriminate|]. intros [_ Hnone]. destruct (Hnone ns Hin Hlive).
    + exists None, k. split; [exact E|]. split; [|split].
      * discriminate.
      * left. reflexivity.
      * split; [intros _; split; assumption|reflexivity].
  - exists (Some c), k. split; [apply find_path_cached; assumption|].
    split; [|split].
    + intros ? [= <-]. exact Hc.
    + left. reflexivity.
    + split; [discriminate|]. intros [Hstale _]. destruct (Hstale c Ec Hc).
Qed.

(** C2, as amended.  [nvme_find_path] always returns.  What it returns
    is live, also in the state it leaves; it returns a path whenever some
    path of the path set is live.  A live cached path is returned as it
    is, whether or not it is a path of the set, and nothing is written;
    otherwise the result is the first live path of the set in list order,
    installed as the new cache value and nothing else changed, or NULL
    with nothing changed when the set has no live path.  The result is
    NULL exactly when the cached path is not live (or there is none) and
    no path of the set is live. *)
Theorem find_path_returns_live (k : kernel) :
  exists (r : option ns_ptr) (k' : kernel),
    nvme_find_path k = Some (r, k') /\
    (forall ns, r = Some ns -> live k ns /\ live k' ns) /\
    ((exists p, p ∈ siblings (head k) /\ live k p) ->
       exists ns, r = Some ns /\ live k' ns) /\
    (forall c, current_path (head k) = Some c -> live k c ->
       r = Some c /\ k' = k) /\
    ((forall c, current_path (head k) = Some c -> ~ live k c) ->
       match r with
       | Some ns =>
           first_live k (siblings (head k)) ns /\
           current_path (head k') = Some ns /\
           k' = install ns k
       | None =>
           (forall p, p ∈ siblings (head k) -> ~ live k p) /\ k' = k
       end) /\
    (r = None <->
       (forall c, current_path (head k) = Some c -> ~ live k c) /\
       (forall p, p ∈ siblings (head k) -> ~ live k p)).
Proof.
  destruct (cache_stale_or_live k) as [Hstale|(c & Ec & Hc)].
  - destruct (find_path_scan_cases k Hstale) as [(ns & E & Hfirst)|(E & Hnone)].
    + destruct (first_live_elem _ _ _ Hfirst) as [Hin Hlive].
      exists (Some ns), (install ns k).
      refine (conj E (conj _ (conj _ (conj _ (conj _ _))))).
      * intros ? [= <-]. split; exact Hlive.
      * intros _. exists ns. split; [reflexivity|exact Hlive].
      * intros c Ec Hc. destruct (Hstale c Ec Hc).
      * intros _. repeat split. exact Hfirst.
      * split; [discriminate|]. intros [_ Hnone]. destruct (Hnone ns Hin Hlive).
    + exists None, k.
      refine (conj E (conj _ (conj _ (conj _ (conj _ _))))).
      * discriminate.
      * intros (p & Hp & Hl). destruct (Hnone p Hp Hl).
      * intros c Ec Hc. destruct (Hstale c Ec Hc).
      * intros _. split; [exact Hnone|reflexivity].
      * split; [intros _; split; assumption|reflexivity].
  - exists (Some c), k.
    refine (conj (find_path_cached k c Ec Hc)
              (conj _ (conj _ (conj _ (conj _ _))))).
    + intros ? [= <-]. split; exact Hc.
    + intros _. exists c. split; [reflexivity|exact Hc].
    + intros c' Ec' _. split; congruence.
    + intros Hstale. destruct (Hstale c Ec Hc).
    + split; [discriminate|]. intros [Hstale _]. destruct (Hstale c Ec Hc).
Qed.

(** C6. When the cached path is no longer live, or the cache is empty,
    [nvme_find_path] does what a full scan of the path set does and never
    returns the cached path: the result is either a live path of the set,
    different from the stale one and installed in the cache, or NULL.  For
    the path set [a; b] with [a] cached: after the controller states have
    changed so that [a] is not live and [b] is, it returns [b]. *)
Theorem find_path_never_stale :
  (forall k : kernel,
     (forall c, current_path (head k) = Some c -> ~ live k c) ->
     exists (r : option ns_ptr) (k' : kernel),
       nvme_find_path k = Some (r, k') /\
       __nvme_find_path k = Some (r, k') /\
       (forall c, current_path (head k) = Some c -> r ≠ Some c) /\
       match r with
       | Some ns =>
           first_live k (siblings (head k)) ns /\
           ns ∈ siblings (head k) /\ live k' ns /\
           current_path (head k') = Some ns
       | None => forall p, p ∈ siblings (head k) -> ~ live k p
       end) /\
  (forall (k : kernel) (a b : ns_ptr) (ctrls' : ctrl_ptr -> nvme_ctrl),
     siblings (head k) = [a; b] ->
     current_path (head k) = Some a ->
     ~ live (set_ctrls ctrls' k) a ->
     live (set_ctrls ctrls' k) b ->
     nvme_find_path (set_ctrls ctrls' k) =
       Some (Some b, install b (set_ctrls ctrls' k))) /\
  (forall (k : kernel) (a b : ns_ptr) (ctrls' : ctrl_ptr -> nvme_ctrl),
     siblings (head k) = [a; b] ->
     current_path (head k) = None ->
     live k a -> ~ live k b ->
     exists k1 : kernel,
       nvme_find_path k = Some (Some a, k1) /\
       current_path (head k1) = Some a /\
       (~ live (set_ctrls ctrls' k1) a ->
        live (set_ctrls ctrls' k1) b ->
        nvme_find_path (set_ctrls ctrls' k1) =
          Some (Some b, install b (set_ctrls ctrls' k1)))).
Proof.
  assert (Hswitch : forall (k : kernel) (a b : ns_ptr),
             siblings (head k) = [a; b] -> current_path (head k) = Some a ->
             ~ live k a -> live k b ->
             nvme_find_path k = Some (Some b, install b k)).
  { intros k a b Hl Hc Ha Hb.
    rewrite find_path_scan by (intros c Ec; congruence).
    rewrite find_path_from_spec, Hl. cbn [list_find].
    destruct (decide (live k a)) as [?|_]; [tauto|].
    destruct (decide (live k b)) as [_|?]; [reflexivity|tauto]. }
  split; [|split].
  - intros k Hstale.
    destruct (find_path_scan_cases k Hstale) as [(ns & E & Hfirst)|(E & Hnone)].
    + destruct (first_live_elem _ _ _ Hfirst) as [Hin Hlive].
      exists (Some ns), (install ns k).
      refine (conj E (conj _ (conj _ _))).
      * rewrite <- E. symmetry. apply find_path_scan, Hstale.
      * intros c Ec [= ->]. exact (Hstale c Ec Hlive).
      * repeat split; assumption.
    + exists None, k.
      refine (conj E (conj _ (conj _ Hnone))).
      * rewrite <- E. symmetry. apply find_path_scan, Hstale.
      * discriminate.
  - intros k a b ctrls' Hl Hc Ha Hb. apply (Hswitch _ a b); assumption.
  - intros k a b ctrls' Hl Hc Ha Hb. exists (install a k).
    split; [|split].
    + rewrite find_path_scan by (intros c Ec; congruence).
      rewrite find_path_from_spec, Hl. cbn [list_find].
      destruct (decide (live k a)) as [_|?]; [reflexivity|tauto].
    + reflexivity.
    + intros Ha' Hb'. apply (Hswitch _ a b); [exact Hl|reflexivity|assumption..].
Qed.

End selector_properties.

Lemma bind_some {A B} (m : M A) (f : A -> M B) (k k1 : kernel) (a : A) :
  m k = Some (a, k1) -> (m ≫= f) k = f a k1.
Proof. intros E. unfold mbind, M_bind. rewrite E. reflexivity. Qed.

Section frame.

(** The selector neither reads nor writes the log. *)
Lemma find_path_set_log (l : list event) (k : kernel) :
  nvme_find_path (set_log l k) =
    match nvme_find_path k with
    | Some (r, k1) => Some (r, set_log l k1)
    | None => None
    end.
Proof.
  destruct (cache_stale_or_live k) as [Hstale|(c & Ec & Hc)].
  - rewrite (find_path_scan k Hstale), (find_path_scan (set_log l k) Hstale).
    rewrite !find_path_from_spec.
    change (live (set_log l k)) with (live k).
    change (siblings (head (set_log l k))) with (siblings (head k)).
    destruct (list_find (live k) (siblings (head k))) as [[i ns]|]; reflexivity.
  - rewrite (find_path_cached k c Ec Hc), (find_path_cached (set_log l k) c Ec Hc).
    reflexivity.
Qed.

End frame.

Section pipeline_properties.
Context `{kernel_headers}.

(** C3. Called with the requeue lock free, [nvme_failover_req] returns.
    All bios of the request are appended to the pending-requeue queue of
    the head and the request keeps none; this happens between taking and
    releasing the requeue lock.  Then the request is completed with
    status 0, whatever status it carried, then the controller of the
    path is asked to reset, then the requeue work is scheduled, which
    leaves the work item pending.  Nothing else of the head changes. *)
Theorem failover_req_absorbs (k : kernel) (req : request) :
  requeue_lock (head k) = false ->
  exists (req' : request) (k' : kernel),
    nvme_failover_req req k = Some (req', k') /\
    requeue_list (head k') = requeue_list (head k) ++ rq_bios req /\
    rq_bios req' = [] /\
    log k' = log k ++
      [ev_spin_lock_irqsave;
       ev_blk_steal_bios (rq_id req) (rq_bios req);
       ev_spin_unlock_irqrestore;
       ev_blk_mq_end_request (rq_id req) 0;
       ev_nvme_reset_ctrl (ctrl (namespaces k (rq_ns req)));
       ev_kblockd_schedule_work] /\
    requeue_work_pending (head k') = true /\
    requeue_lock (head k') = false /\
    siblings (head k') = siblings (head k) /\
    current_path (head k') = current_path (head k) /\
    disk (head k') = disk (head k).
Proof.
  intros Hlock. unfold nvme_failover_req. run. rewrite Hlock. cbn.
  eexists _, _. split; [reflexivity|]. cbn.
  repeat split. rewrite <- !app_assoc. reflexivity.
Qed.

Lemma wrap32_tag (x : Z) :
  Z.land (wrap32 (Z.lor x REQ_NVME_MPATH)) REQ_NVME_MPATH = REQ_NVME_MPATH.
Proof.
  pose proof REQ_NVME_MPATH_flag as [Hpos Hlt].
  unfold wrap32. rewrite <- Z.land_ones by lia.
  rewrite <- Z.land_assoc, (Z.land_comm (Z.ones 32)), Z.land_ones by lia.
  rewrite (Z.mod_small REQ_NVME_MPATH) by lia.
  apply Z.bits_inj'. intros n Hn.
  rewrite Z.land_spec, Z.lor_spec.
  destruct (Z.testbit x n), (Z.testbit REQ_NVME_MPATH n); reflexivity.
Qed.

Lemma routed_bio_tagged (ns : ns_ptr) (b : bio) :
  mpath_routed (bi_opf (routed_bio ns b)).
Proof.
  unfold mpath_routed, routed_bio. cbn [bi_opf set_bi_opf].
  rewrite wrap32_tag. pose proof REQ_NVME_MPATH_flag. lia.
Qed.

(** C4, as amended.  Called with the requeue lock free,
    [nvme_ns_head_make_request] returns, and does one of three things
    according to what [nvme_find_path] returns.  When it returns a path
    [ns] (the live cached path, a path of the set or not, or else the
    first live path of the set): the bio is aimed at the disk of [ns],
    gets the multipath tag and is handed to [direct_make_request], whose
    cookie is returned; the requeue lock is not touched.  When it returns
    NULL and the path set is not empty: the bio, unchanged, is appended to
    the pending-requeue queue between taking and releasing the requeue
    lock.  When it returns NULL and the path set is empty: the bio is
    ended with [BLK_STS_IOERR].  With an empty path set the selector
    returns NULL, and the bio is failed, exactly when the cached path is
    not live (or there is none).  In each case the bio goes to exactly
    one of the three places, and the SRCU read section is left before
    returning. *)
Theorem make_request_outcomes (k : kernel) (b : bio) :
  requeue_lock (head k) = false ->
  exists (ret : Z) (k' : kernel) (r : option ns_ptr) (k1 : kernel),
    nvme_ns_head_make_request b k = Some (ret, k') /\
    nvme_find_path k = Some (r, k1) /\
    (siblings (head k) = [] ->
       (r = None <->
        forall c, current_path (head k) = Some c -> ~ live k c)) /\
    match r with
    | Some ns =>
        live k ns /\
        mpath_routed (bi_opf (routed_bio ns b)) /\
        bi_disk (routed_bio ns b) = ns_disk ns /\
        ret = cookie k (routed_bio ns b) /\
        log k' = log k ++
          [ev_srcu_read_lock; ev_direct_make_request (routed_bio ns b);
           ev_srcu_read_unlock] /\
        head k' = head k1
    | None =>
        if decide (siblings (head k) = []) then
          ret = BLK_QC_T_NONE /\
          bi_status (failed_bio b) = BLK_STS_IOERR /\
          log k' = log k ++
            [ev_srcu_read_lock;
             ev_dev_warn_ratelimited "no path - failing I/O";
             ev_bio_endio (failed_bio b);
             ev_srcu_read_unlock] /\
          head k' = head k
        else
          ret = BLK_QC_T_NONE /\
          log k' = log k ++
            [ev_srcu_read_lock;
             ev_dev_warn_ratelimited "no path available - requeuing I/O";
             ev_spin_lock_irq; ev_bio_list_add b; ev_spin_unlock_irq;
             ev_srcu_read_unlock] /\
          requeue_list (head k') = requeue_list (head k) ++ [b] /\
          requeue_lock (head k') = false /\
          siblings (head k') = siblings (head k) /\
          current_path (head k') = current_path (head k) /\
          disk (head k') = disk (head k)
    end.
Proof.
  intros Hlock.
  destruct (find_path_summary k) as (r & k1 & E & Hlive & Hk1 & Hnull).
  assert (Hempty : siblings (head k) = [] ->
            (r = None <->
             forall c, current_path (head k) = Some c -> ~ live k c)).
  { intros Hnil. rewrite Hnull. split; [intros [Hstale _]; exact Hstale|].
    intros Hstale. split; [exact Hstale|]. intros p Hp.
    rewrite Hnil in Hp. inversion Hp. }
  clear Hnull.
  unfold nvme_ns_head_make_request. unfold_monad.
  rewrite find_path_set_log, E.
  destruct r as [ns|].
  - pose proof (Hlive ns eq_refl) as Hns.
    pose proof (routed_bio_tagged ns b) as Htag.
    destruct Hk1 as [->|(? & [= <-] & ->)];
      (eexists _, _, _, _; split; [reflexivity|]; split; [reflexivity|];
       split; [exact Hempty|];
       cbn [log set_log head cookie install set_head];
       refine (conj Hns (conj Htag (conj eq_refl (conj eq_refl (conj _ eq_refl)))));
       rewrite <- !app_assoc; reflexivity).
  - assert (k1 = k) as ->
      by (destruct Hk1 as [?|(? & ? & _)]; [assumption|discriminate]).
    cbn [log set_log head].
    destruct (decide (siblings (head k) = [])) as [El|El].
    + rewrite (bool_decide_eq_true_2 _ El). cbn [negb].
      eexists _, _, _, _. split; [reflexivity|]. split; [reflexivity|].
      split; [exact Hempty|].
      cbn [log set_log head].
      refine (conj eq_refl (conj eq_refl (conj _ eq_refl))).
      rewrite <- !app_assoc. reflexivity.
    + rewrite (bool_decide_eq_false_2 _ El). cbn [negb].
      run. rewrite Hlock.
      eexists _, _, _, _. split; [reflexivity|]. split; [reflexivity|].
      split; [exact Hempty|].
      cbn.
      refine (conj eq_refl (conj _ _)); [|repeat split].
      rewrite <- !app_assoc. reflexivity.
Qed.

(** C10. [nvme_ns_head_poll] always returns and looks at the cached
    path only.  When there is a cached path and it is live, the poll
    function of that path's queue is called and its answer returned; in
    every other case no poll function is called and the result is false.
    In both cases nothing of the kernel state but the log changes: the
    path set is not scanned for a replacement and the cache keeps its
    value, even when another path of the set is live and
    [nvme_find_path] would install it. *)
Theorem poll_consults_cache_only (k : kernel) (qc : Z) :
  exists (found : bool) (evs : list event),
    nvme_ns_head_poll qc k = Some (found, set_log (log k ++ evs) k) /\
    match current_path (head k) with
    | Some ns =>
        if decide (live k ns) then
          found = poll_answer k ns qc /\
          evs = [ev_srcu_read_lock; ev_queue_poll_fn ns qc;
                 ev_srcu_read_unlock]
        else
          found = false /\ evs = [ev_srcu_read_lock; ev_srcu_read_unlock]
    | None =>
        found = false /\ evs = [ev_srcu_read_lock; ev_srcu_read_unlock]
    end.
Proof.
  unfold nvme_ns_head_poll. run.
  destruct (current_path (head k)) as [ns|].
  - unfold live.
    destruct (decide (ns_ctrl_state k ns = NVME_CTRL_LIVE)) as [E|E].
    + cbn. rewrite decide_True by exact E. cbn.
      eexists _, _. split; [|split; reflexivity].
      rewrite <- !app_assoc. reflexivity.
    + cbn. rewrite decide_False by exact E. cbn.
      eexists _, _. split; [|split; reflexivity].
      rewrite <- !app_assoc. reflexivity.
  - eexists _, _. split; [|split; reflexivity].
    cbn. rewrite <- !app_assoc. reflexivity.
Qed.

(** What routing one bio leaves behind, as the drain sees it. *)
Lemma make_request_frame (k : kernel) (b : bio) :
  requeue_lock (head k) = false ->
  exists (ret : Z) (k' : kernel) (evs : list event),
    nvme_ns_head_make_request b k = Some (ret, k') /\
    log k' = log k ++ evs /\
    resubmitted evs = [] /\
    requeue_list (head k') = requeue_list (head k) ++ enqueued evs /\
    requeue_lock (head k') = false /\
    disk (head k') = disk (head k).
Proof.
  intros Hlock.
  destruct (find_path_summary k) as (r & k1 & E & _ & Hk1 & _).
  unfold nvme_ns_head_make_request. unfold_monad.
  rewrite find_path_set_log, E.
  destruct r as [ns|].
  - destruct Hk1 as [->|(? & [= <-] & ->)];
      (eexists _, _, _; split; [reflexivity|];
       cbn [log set_log head install set_head];
       split; [rewrite <- !app_assoc; reflexivity|];
       cbn; rewrite ?app_nil_r; repeat split; assumption).
  - assert (k1 = k) as ->
      by (destruct Hk1 as [?|(? & ? & _)]; [assumption|discriminate]).
    cbn [log set_log head].
    destruct (decide (siblings (head k) = [])) as [El|El].
    + rewrite (bool_decide_eq_true_2 _ El). cbn [negb].
      eexists _, _, _. split; [reflexivity|].
      cbn [log set_log head].
      split; [rewrite <- !app_assoc; reflexivity|].
      cbn. rewrite ?app_nil_r. repeat split; assumption.
    + rewrite (bool_decide_eq_false_2 _ El). cbn [negb].
      run. rewrite Hlock.
      eexists _, _, _. split; [reflexivity|].
      cbn. split; [rewrite <- !app_assoc; reflexivity|].
      cbn. repeat split.
Qed.

(** One resubmission while the aggregate device is up. *)
Lemma generic_make_request_routes (k : kernel) (b : bio) :
  can_route k -> bi_disk b = head_disk ->
  exists (k' : kernel) (evs : list event),
    generic_make_request b k = Some (tt, k') /\
    log k' = log k ++ evs /\
    resubmitted evs = [b] /\
    requeue_list (head k') = requeue_list (head k) ++ enqueued evs /\
    can_route k'.
Proof.
  intros (Hlock & d & q & Hd & Hq & Hdying & Hfn) Hb.
  destruct (make_request_frame
              (set_log (log k ++ [ev_generic_make_request b]) k) b Hlock)
    as (ret & k' & evs & E & Hlog & Hres & Hlist & Hlock' & Hdisk).
  exists k', (ev_generic_make_request b :: evs).
  unfold generic_make_request. unfold_monad. rewrite Hb.
  cbn [head set_log]. rewrite Hd, Hq, Hdying, Hfn, E.
  split; [reflexivity|]. split; [|split; [|split; [|split]]].
  - rewrite Hlog. cbn [log set_log]. rewrite <- app_assoc. reflexivity.
  - cbn. fold (resubmitted evs). rewrite Hres. reflexivity.
  - exact Hlist.
  - exact Hlock'.
  - exists d, q. rewrite Hdisk. cbn [head set_log]. auto.
Qed.

Lemma requeue_loop_routes (next : list bio) :
  forall k : kernel,
    can_route k ->
    exists (k' : kernel) (evs : list event),
      nvme_requeue_work_loop next k = Some (tt, k') /\
      log k' = log k ++ evs /\
      resubmitted evs = map (set_bi_disk head_disk) next /\
      requeue_list (head k') = requeue_list (head k) ++ enqueued evs /\
      can_route k'.
Proof.
  induction next as [|b next IH]; intros k Hk.
  - exists k, []. cbn. rewrite !app_nil_r. auto.
  - destruct (generic_make_request_routes k (set_bi_disk head_disk b) Hk eq_refl)
      as (k1 & evs1 & E1 & Hlog1 & Hres1 & Hlist1 & Hk1).
    destruct (IH k1 Hk1) as (k' & evs2 & E2 & Hlog2 & Hres2 & Hlist2 & Hk').
    exists k', (evs1 ++ evs2).
    cbn [nvme_requeue_work_loop]. rewrite (bind_some _ _ _ _ _ E1), E2.
    split; [reflexivity|]. split; [|split; [|split]].
    + rewrite Hlog2, Hlog1, app_assoc. reflexivity.
    + unfold resubmitted in *. rewrite omap_app, Hres1, Hres2. reflexivity.
    + unfold enqueued in *. rewrite omap_app, Hlist2, Hlist1, app_assoc.
      reflexivity.
    + exact Hk'.
Qed.

(** C5. With the aggregate device up, [nvme_requeue_work] returns.  It
    takes the requeue lock, takes the whole pending-requeue queue and
    leaves an empty one, releases the lock, and then hands the bios of
    that generation to [generic_make_request], each exactly once and in
    queue order, each aimed at the aggregate device first.  So as many
    bios are resubmitted as were queued.  The bios that are queued while
    the drain runs (a resubmission that finds no live path queues its bio
    again) are the content of the new queue when the drain returns, and
    none of them is resubmitted by this pass.  The same holds from any
    point of the loop on: whatever the new queue holds when the loop is
    at the chain [next], the loop resubmits the bios of [next] and no
    others, and what the new queue holds stays in it, in front of what is
    queued later. *)
Theorem requeue_work_drains (k : kernel) :
  can_route k ->
  (exists (k' : kernel) (evs : list event),
     nvme_requeue_work k = Some (tt, k') /\
     log k' = log k ++
       [ev_spin_lock_irq; ev_bio_list_get (requeue_list (head k));
        ev_spin_unlock_irq] ++ evs /\
     resubmitted evs = map (set_bi_disk head_disk) (requeue_list (head k)) /\
     Forall (fun b => bi_disk b = head_disk) (resubmitted evs) /\
     map bi_id (resubmitted evs) = map bi_id (requeue_list (head k)) /\
     length (resubmitted evs) = length (requeue_list (head k)) /\
     requeue_list (head k') = enqueued evs /\
     requeue_lock (head k') = false) /\
  (forall (next : list bio) (k1 : kernel),
     can_route k1 ->
     exists (k' : kernel) (evs : list event),
       nvme_requeue_work_loop next k1 = Some (tt, k') /\
       log k' = log k1 ++ evs /\
       resubmitted evs = map (set_bi_disk head_disk) next /\
       requeue_list (head k') = requeue_list (head k1) ++ enqueued evs).
Proof.
  intros Hk. split.
  - pose proof Hk as (Hlock & d & q & Hd & Hq & Hdying & Hfn).
    set (k0 := set_log (log k ++ [ev_spin_lock_irq;
                                  ev_bio_list_get (requeue_list (head k));
                                  ev_spin_unlock_irq])
                 (set_head (set_requeue_list [] (head k)) k)).
    assert (Hk0 : can_route k0).
    { split; [exact Hlock|]. exists d, q. auto. }
    destruct (requeue_loop_routes (requeue_list (head k)) k0 Hk0)
      as (k' & evs & E & Hlog & Hres & Hlist & Hlock' & _).
    exists k', evs.
    assert (Erun : nvme_requeue_work k =
                   nvme_requeue_work_loop (requeue_list (head k)) k0).
    { unfold nvme_requeue_work. run. rewrite Hlock. cbn.
      rewrite <- !app_assoc. cbn.
      f_equal. unfold k0, set_log, set_head, set_requeue_list. cbn.
      rewrite <- Hlock. reflexivity. }
    rewrite Erun, E. split; [reflexivity|].
    split; [rewrite Hlog, app_assoc; reflexivity|].
    split; [exact Hres|].
    split; [rewrite Hres; apply Forall_map, Forall_true; reflexivity|].
    split; [rewrite Hres, map_map; reflexivity|].
    split; [rewrite Hres, length_map; reflexivity|].
    split; [exact Hlist|exact Hlock'].
  - intros next k1 Hk1.
    destruct (requeue_loop_routes next k1 Hk1)
      as (k' & evs & E & Hlog & Hres & Hlist & _).
    exists k', evs. auto.
Qed.

End pipeline_properties.

Section lifecycle_properties.
Context `{kernel_headers}.

(** The drain loop on a terminating queue. *)
Lemma requeue_loop_dying (next : list bio) :
  forall (k : kernel) (d : gendisk) (q : request_queue),
    disk (head k) = Some d -> disk_queue d = Some q ->
    QUEUE_FLAG_DYING q = true ->
    nvme_requeue_work_loop next k =
      Some (tt, set_log (log k ++ terminal_failures next) k).
Proof.
  induction next as [|b next IH]; intros k d q Hd Hq Hdying.
  - cbn. rewrite app_nil_r. destruct k. reflexivity.
  - cbn [nvme_requeue_work_loop].
    erewrite bind_some.
    2:{ unfold generic_make_request. unfold_monad.
        cbn [bi_disk set_bi_disk head set_log].
        rewrite Hd, Hq, Hdying. reflexivity. }
    erewrite IH by (cbn [head set_log]; eassumption).
    cbn. rewrite <- !app_assoc. reflexivity.
Qed.

(** C7. On a head without an aggregate device [nvme_mpath_remove_disk]
    returns at once and changes nothing, so calling it again changes
    nothing either.  On a head whose aggregate device exists (with the
    work item initialised and the requeue lock free) it returns, having
    removed the sysfs group, deleted the disk, marked the queue dying,
    scheduled the requeue work and flushed it: the flush runs the drain to
    the end, which takes every pending bio off the queue and resubmits
    it, each exactly once, and on the dying queue each ends with an I/O
    error.  Only then are the queue cleaned up and the disk put.  The
    pending-requeue queue is empty afterwards. *)
Theorem remove_disk_drains (k : kernel) :
  (disk (head k) = None ->
     nvme_mpath_remove_disk k = Some (tt, k) /\
     (nvme_mpath_remove_disk;; nvme_mpath_remove_disk) k = Some (tt, k)) /\
  (forall (d : gendisk) (q : request_queue),
     disk (head k) = Some d -> disk_queue d = Some q ->
     requeue_work (head k) = Some fn_nvme_requeue_work ->
     requeue_lock (head k) = false ->
     exists k' : kernel,
       nvme_mpath_remove_disk k = Some (tt, k') /\
       log k' = log k ++
         [ev_sysfs_remove_group; ev_del_gendisk; ev_blk_set_queue_dying;
          ev_kblockd_schedule_work; ev_flush_work;
          ev_spin_lock_irq; ev_bio_list_get (requeue_list (head k));
          ev_spin_unlock_irq] ++
         terminal_failures (requeue_list (head k)) ++
         [ev_blk_cleanup_queue; ev_put_disk] /\
       length (resubmitted (terminal_failures (requeue_list (head k)))) =
         length (requeue_list (head k)) /\
       requeue_list (head k') = [] /\
       requeue_work_pending (head k') = false /\
       disk (head k') = Some (set_disk_queue (set_QUEUE_FLAG_DYING q) d)).
Proof.
  split.
  - intros Hd.
    assert (E : nvme_mpath_remove_disk k = Some (tt, k)).
    { unfold nvme_mpath_remove_disk. unfold_monad. rewrite Hd. reflexivity. }
    split; [exact E|]. rewrite (bind_some _ _ _ _ _ E). exact E.
  - intros d q Hd Hq Hwork Hlock.
    unfold nvme_mpath_remove_disk, flush_work, nvme_requeue_work. run.
    repeat (progress (rewrite ?Hd, ?Hq, ?Hwork, ?Hlock; cbn)).
    erewrite requeue_loop_dying by reflexivity.
    eexists. split; [reflexivity|]. cbn.
    split; [|split; [|repeat split]].
    + rewrite <- !app_assoc. reflexivity.
    + clear. induction (requeue_list (head k)) as [|b l IH]; [reflexivity|].
      cbn. f_equal. exact IH.
Qed.

(** C8. [nvme_mpath_alloc_disk] always returns, and always leaves the
    pending-requeue queue empty, the requeue lock free and the work item
    initialised to [nvme_requeue_work], whatever they held before.  When
    the subsystem does not report multiple controllers or the module
    parameter is off, it returns 0, allocates nothing and leaves
    [head->disk] as it was.  Otherwise it allocates the queue and the
    disk: when both allocations succeed it returns 0 and [head->disk] is
    the aggregate device, with the routing and polling functions on its
    queue; when the queue cannot be allocated it returns [-ENOMEM] and
    leaves [head->disk] as it was; when the disk cannot be allocated it
    cleans the queue up, returns [-ENOMEM], and [head->disk] is NULL.  So
    a head that had no aggregate device has one afterwards only in the
    case where both allocations succeed. *)
Theorem alloc_disk_outcomes (k : kernel) (c : ctrl_ptr) :
  exists (ret : Z) (k' : kernel),
    nvme_mpath_alloc_disk c k = Some (ret, k') /\
    requeue_list (head k') = [] /\
    requeue_lock (head k') = false /\
    requeue_work (head k') = Some fn_nvme_requeue_work /\
    requeue_work_pending (head k') = false /\
    siblings (head k') = siblings (head k) /\
    current_path (head k') = current_path (head k) /\
    (if decide (aggregation_wanted k c) then
       match allocations k with
       | true :: true :: rest =>
           ret = 0 /\ disk (head k') = Some (mpath_disk k c) /\
           can_route k' /\ allocations k' = rest /\ log k' = log k
       | true :: _ =>
           ret = - ENOMEM /\ disk (head k') = None /\
           log k' = log k ++ [ev_blk_cleanup_queue]
       | _ =>
           ret = - ENOMEM /\ disk (head k') = disk (head k) /\
           log k' = log k
       end
     else
       ret = 0 /\ disk (head k') = disk (head k) /\
       allocations k' = allocations k /\ log k' = log k) /\
    (disk (head k) = None ->
     disk (head k') ≠ None ->
       ret = 0 /\ aggregation_wanted k c /\
       exists rest, allocations k = true :: true :: rest).
Proof.
  unfold nvme_mpath_alloc_disk.
  destruct (decide (aggregation_wanted k c)) as [[Hcmic Hmp]|Hno].
  - run. rewrite (bool_decide_eq_false_2 _ Hcmic), Hmp. cbn.
    destruct (allocations k) as [|[] [|[] rest]] eqn:Ea; cbn;
      (eexists _, _; split; [reflexivity|]; cbn; repeat split;
       try tauto; try congruence; eauto).
    all: eexists _, _; cbn; repeat split.
  - run.
    assert (bool_decide (Z.land (cmic (subsys (ctrls k c))) (Z.shiftl 1 1) = 0)
            || negb (multipath k) = true) as ->.
    { unfold aggregation_wanted in Hno.
      destruct (decide (Z.land (cmic (subsys (ctrls k c))) (Z.shiftl 1 1) = 0))
        as [E|E].
      - rewrite (bool_decide_eq_true_2 _ E). reflexivity.
      - rewrite (bool_decide_eq_false_2 _ E).
        destruct (multipath k); [tauto|reflexivity]. }
    eexists _, _. split; [reflexivity|]. cbn. repeat split; try tauto.
Qed.

End lifecycle_properties.

(** * The scenarios, run *)

Section scenarios.
#[local] Existing Instance linux_headers.

(** A guard check failure is not a path failure, with or without the
    do-not-retry bit. *)
Example guard_check_is_not_rerouted :
  nvme_req_needs_failover (completed REQ_NVME_MPATH NVME_SC_GUARD_CHECK) = false /\
  nvme_req_needs_failover
    (completed REQ_NVME_MPATH (Z.lor NVME_SC_DNR NVME_SC_GUARD_CHECK)) = false.
Proof. split; reflexivity. Qed.

(** A command aborted on timeout is rerouted, but only when it went
    through the multipath node. *)
Example timeout_is_rerouted :
  nvme_req_needs_failover (completed REQ_NVME_MPATH NVME_SC_ABORT_REQ) = true /\
  nvme_req_needs_failover (completed 0 NVME_SC_ABORT_REQ) = false.
Proof. split; reflexivity. Qed.

(** The switch has eighteen labels, all different and all within the mask. *)
Example labels_distinct_in_mask :
  length unretryable_status = 18%nat /\
  NoDup unretryable_status /\
  Forall (fun c => Z.land c 0x7ff = c) unretryable_status.
Proof.
  split; [reflexivity|]. split.
  - apply (bool_decide_unpack _). vm_compute. exact I.
  - apply (bool_decide_unpack _). vm_compute. exact I.
Qed.

Example select_A_then_B :
  fst <$> nvme_find_path kernel_A_live = Some (Some path_A) /\
  fst <$> nvme_find_path kernel_A_stale = Some (Some path_B) /\
  fst <$> nvme_find_path kernel_all_down = Some None.
Proof. repeat split. Qed.

Example route_requeues_when_all_down :
  (requeue_list ∘ head ∘ snd) <$>
    nvme_ns_head_make_request (sample_bio 9) kernel_all_down =
  Some [sample_bio 7; sample_bio 8; sample_bio 9].
Proof. reflexivity. Qed.

Example route_fails_without_paths :
  (log ∘ snd) <$> nvme_ns_head_make_request (sample_bio 9) kernel_no_path =
  Some [ev_srcu_read_lock;
        ev_dev_warn_ratelimited "no path - failing I/O";
        ev_bio_endio (set_bi_status 10 (sample_bio 9));
        ev_srcu_read_unlock].
Proof. reflexivity. Qed.

(** With every controller down the drain resubmits both waiting bios,
    and routing queues each of them again, aimed at the aggregate
    device. *)
Example drain_requeues_when_all_down :
  (requeue_list ∘ head ∘ snd) <$> nvme_requeue_work kernel_all_down =
    Some [set_bi_disk head_disk (sample_bio 7);
          set_bi_disk head_disk (sample_bio 8)] /\
  (resubmitted ∘ log ∘ snd) <$> nvme_requeue_work kernel_all_down =
    Some [set_bi_disk head_disk (sample_bio 7);
          set_bi_disk head_disk (sample_bio 8)].
Proof. split; reflexivity. Qed.

(** Once [path_B] is live the drain sends both bios down [path_B]. *)
Example drain_dispatches_when_B_live :
  (log ∘ snd) <$>
    nvme_requeue_work
      (set_ctrls (ctrls_in NVME_CTRL_RECONNECTING NVME_CTRL_LIVE)
         kernel_all_down) =
  Some [ev_spin_lock_irq;
        ev_bio_list_get [sample_bio 7; sample_bio 8];
        ev_spin_unlock_irq;
        ev_generic_make_request (set_bi_disk head_disk (sample_bio 7));
        ev_srcu_read_lock;
        ev_direct_make_request (routed_bio path_B (sample_bio 7));
        ev_srcu_read_unlock;
        ev_generic_make_request (set_bi_disk head_disk (sample_bio 8));
        ev_srcu_read_lock;
        ev_direct_make_request (routed_bio path_B (sample_bio 8));
        ev_srcu_read_unlock].
Proof. reflexivity. Qed.

(** Tear-down with two bios waiting. *)
Example tear_down_fails_pending :
  (log ∘ snd) <$> nvme_mpath_remove_disk kernel_all_down =
  Some [ev_sysfs_remove_group; ev_del_gendisk; ev_blk_set_queue_dying;
        ev_kblockd_schedule_work; ev_flush_work;
        ev_spin_lock_irq;
        ev_bio_list_get [sample_bio 7; sample_bio 8];
        ev_spin_unlock_irq;
        ev_generic_make_request (set_bi_disk head_disk (sample_bio 7));
        ev_bio_endio (failed_bio (set_bi_disk head_disk (sample_bio 7)));
        ev_generic_make_request (set_bi_disk head_disk (sample_bio 8));
        ev_bio_endio (failed_bio (set_bi_disk head_disk (sample_bio 8)));
        ev_blk_cleanup_queue; ev_put_disk].
Proof. reflexivity. Qed.

(** Bring-up without memory for the disk. *)
Example bring_up_without_memory :
  (fun '(ret, k') => (ret, disk (head k'), log k')) <$>
    nvme_mpath_alloc_disk path_A (set_allocations [true; false] kernel_fresh) =
  Some (-12, None, [ev_blk_cleanup_queue]).
Proof. reflexivity. Qed.

Example bring_up_names_the_disk :
  (fmap disk_name ∘ disk ∘ head ∘ snd) <$>
    nvme_mpath_alloc_disk path_A kernel_fresh = Some (Some "nvme0n1").
Proof. vm_compute. reflexivity. Qed.

End scenarios.

(** * The theorems at the scenarios *)

Section at_scenarios.

Lemma all_down_not_live (p : ns_ptr) :
  p ∈ siblings (head kernel_all_down) -> ~ live kernel_all_down p.
Proof.
  cbn. rewrite !elem_of_cons. intros [->|[->|Hp]].
  - vm_compute. discriminate.
  - vm_compute. discriminate.
  - inversion Hp.
Qed.

Lemma all_down_can_route : can_route kernel_all_down.
Proof. split; [reflexivity|]. exists sample_disk, sample_queue. auto. Qed.

Lemma needs_failover_classification_witness :
  nvme_req_needs_failover (H := linux_headers)
    (completed 0 0x4007) = false /\
  nvme_req_needs_failover (H := linux_headers)
    (completed (Z.shiftl 1 23) 0x282) = false /\
  nvme_req_needs_failover (H := linux_headers)
    (completed (Z.shiftl 1 23) 0x4007) = true.
Proof.
  destruct (@needs_failover_classification linux_headers)
    as (_ & Huntagged & Hlisted & Hother).
  split; [|split].
  - apply Huntagged. vm_compute. tauto.
  - apply Hlisted.
    + vm_compute. discriminate.
    + apply (bool_decide_unpack _). vm_compute. exact I.
  - apply Hother.
    + vm_compute. discriminate.
    + apply (bool_decide_unpack _). vm_compute. exact I.
Defined.

Lemma needs_failover_low_11_bits_witness :
  nvme_req_needs_failover (H := linux_headers)
    (completed (Z.shiftl 1 23) 0x4002) =
  nvme_req_needs_failover (H := linux_headers)
    (completed (Z.shiftl 1 23) 0x2).
Proof.
  apply (proj2 (@needs_failover_low_11_bits linux_headers)).
  - vm_compute. discriminate.
  - vm_compute. discriminate.
  - reflexivity.
Defined.

Lemma all_down_selects_none :
  nvme_find_path kernel_all_down = Some (None, kernel_all_down).
Proof. reflexivity. Qed.

Lemma find_path_returns_live_witness :
  exists k' : kernel, nvme_find_path kernel_all_down = Some (None, k').
Proof.
  destruct (find_path_returns_live kernel_all_down)
    as (r & k' & E & _ & _ & _ & _ & Hnone).
  exists k'. rewrite E. do 2 f_equal. apply Hnone. split.
  - intros c [= <-]. vm_compute. discriminate.
  - exact all_down_not_live.
Defined.

(** C2 as first stated fails on a head whose live cached path is not a
    path of the set: no path of the (empty) set is live, and yet the
    selector returns the cached path, not NULL. *)
Lemma find_path_cached_outside_set :
  (forall p, p ∈ siblings (head kernel_orphan_cache) ->
     ~ live kernel_orphan_cache p) /\
  nvme_find_path kernel_orphan_cache =
    Some (Some path_A, kernel_orphan_cache) /\
  ~ (forall k : kernel,
       (forall p, p ∈ siblings (head k) -> ~ live k p) ->
       exists k' : kernel, nvme_find_path k = Some (None, k')).
Proof.
  assert (Hset : forall p, p ∈ siblings (head kernel_orphan_cache) ->
                   ~ live kernel_orphan_cache p)
    by (intros p Hp; inversion Hp).
  split; [exact Hset|]. split; [reflexivity|].
  intros Hall. destruct (Hall kernel_orphan_cache Hset) as (k' & E).
  discriminate E.
Qed.

(** C4 as first stated fails on the same head: the path set is empty,
    and the bio is tagged and sent down the cached path instead of being
    ended with an I/O error. *)
Lemma make_request_empty_set_dispatches :
  siblings (head kernel_orphan_cache) = [] /\
  (log ∘ snd) <$>
    nvme_ns_head_make_request (H := linux_headers) (sample_bio 9)
      kernel_orphan_cache =
  Some [ev_srcu_read_lock;
        ev_direct_make_request
          (routed_bio (H := linux_headers) path_A (sample_bio 9));
        ev_srcu_read_unlock] /\
  ~ (forall (k : kernel) (b : bio),
       requeue_lock (head k) = false -> siblings (head k) = [] ->
       exists (ret : Z) (k' : kernel),
         nvme_ns_head_make_request (H := linux_headers) b k = Some (ret, k') /\
         ev_bio_endio (failed_bio (H := linux_headers) b) ∈ log k').
Proof.
  split; [reflexivity|]. split; [reflexivity|].
  intros Hall.
  destruct (Hall kernel_orphan_cache (sample_bio 9) eq_refl eq_refl)
    as (ret & k' & E & Hin).
  vm_compute in E. injection E as _ <-.
  cbn [log] in Hin.
  repeat (apply elem_of_cons in Hin as [Hin|Hin]; [discriminate Hin|]).
  inversion Hin.
Qed.

Lemma find_path_never_stale_witness :
  nvme_find_path
    (set_ctrls (ctrls_in NVME_CTRL_RECONNECTING NVME_CTRL_LIVE)
       (install path_A kernel_A_live)) =
    Some (Some path_B, kernel_A_stale_B_cached).
Proof.
  destruct find_path_never_stale as (_ & Hswitch & _).
  apply (Hswitch (install path_A kernel_A_live) path_A path_B
           (ctrls_in NVME_CTRL_RECONNECTING NVME_CTRL_LIVE)).
  - reflexivity.
  - reflexivity.
  - vm_compute. discriminate.
  - reflexivity.
Defined.

Lemma failover_req_absorbs_witness :
  exists (req' : request) (k' : kernel),
    nvme_failover_req failed_request kernel_A_stale = Some (req', k') /\
    requeue_list (head k') = [sample_bio 7; sample_bio 8] /\
    log k' =
      [ev_spin_lock_irqsave;
       ev_blk_steal_bios 5 [sample_bio 7; sample_bio 8];
       ev_spin_unlock_irqrestore;
       ev_blk_mq_end_request 5 0;
       ev_nvme_reset_ctrl path_A;
       ev_kblockd_schedule_work].
Proof.
  destruct (failover_req_absorbs kernel_A_stale failed_request eq_refl)
    as (req' & k' & E & Hlist & _ & Hlog & _).
  exists req', k'. split; [exact E|]. split; [exact Hlist|exact Hlog].
Defined.

Lemma make_request_outcomes_witness :
  exists (ret : Z) (k' : kernel),
    nvme_ns_head_make_request (H := linux_headers) (sample_bio 9)
      kernel_all_down = Some (ret, k') /\
    requeue_list (head k') = [sample_bio 7; sample_bio 8; sample_bio 9].
Proof.
  destruct (@make_request_outcomes linux_headers kernel_all_down
              (sample_bio 9) eq_refl)
    as (ret & k' & r & k1 & E & Efind & _ & Hout).
  exists ret, k'. split; [exact E|].
  rewrite all_down_selects_none in Efind. injection Efind as <- _.
  cbn in Hout. apply Hout.
Defined.

Lemma requeue_work_drains_witness :
  exists (k' : kernel) (evs : list event),
    nvme_requeue_work (H := linux_headers) kernel_all_down = Some (tt, k') /\
    length (resubmitted evs) = 2%nat /\
    requeue_list (head k') = enqueued evs.
Proof.
  destruct (@requeue_work_drains linux_headers kernel_all_down
              all_down_can_route)
    as ((k' & evs & E & _ & _ & _ & _ & Hlen & Hlist & _) & _).
  exists k', evs. split; [exact E|]. split; [exact Hlen|exact Hlist].
Defined.

Lemma remove_disk_drains_witness :
  exists k' : kernel,
    nvme_mpath_remove_disk (H := linux_headers) kernel_all_down =
      Some (tt, k') /\
    requeue_list (head k') = [] /\
    nvme_mpath_remove_disk (H := linux_headers) kernel_fresh =
      Some (tt, kernel_fresh).
Proof.
  destruct (@remove_disk_drains linux_headers kernel_all_down)
    as (_ & Hup).
  destruct (Hup sample_disk sample_queue eq_refl eq_refl eq_refl eq_refl)
    as (k' & E & _ & _ & Hlist & _).
  exists k'. split; [exact E|]. split; [exact Hlist|].
  apply (@remove_disk_drains linux_headers kernel_fresh). reflexivity.
Defined.

Lemma alloc_disk_outcomes_witness :
  exists (k' : kernel),
    nvme_mpath_alloc_disk (H := linux_headers) path_A kernel_fresh =
      Some (0, k') /\
    disk (head k') = Some (mpath_disk (H := linux_headers) kernel_fresh path_A).
Proof.
  destruct (@alloc_disk_outcomes linux_headers kernel_fresh path_A)
    as (ret & k' & E & _ & _ & _ & _ & _ & _ & Hcase & _).
  exists k'.
  rewrite decide_True in Hcase by (split; [vm_compute; discriminate|reflexivity]).
  cbn in Hcase. destruct Hcase as (-> & Hdisk & _).
  split; [exact E|exact Hdisk].
Defined.

Lemma poll_consults_cache_only_witness :
  nvme_ns_head_poll 0 kernel_A_stale =
    Some (false,
          set_log [ev_srcu_read_lock; ev_srcu_read_unlock] kernel_A_stale).
Proof.
  destruct (poll_consults_cache_only kernel_A_stale 0)
    as (found & evs & E & Hcase).
  cbn in Hcase.
  rewrite decide_False in Hcase by (vm_compute; discriminate).
  destruct Hcase as [-> ->]. exact E.
Defined.

End at_scenarios.

(** * Further properties: the selector and the entry point *)

Section selector_algebra.

Lemma scanned_first_live (k : kernel) (ns : ns_ptr) :
  scanned k = Some ns -> first_live k (siblings (head k)) ns.
Proof.
  unfold scanned. destruct (list_find _ _) as [[i p]|] eqn:Ef; [|discriminate].
  intros [= <-]. eapply list_find_first_live, Ef.
Qed.

Lemma scanned_none (k : kernel) :
  scanned k = None -> forall p, p ∈ siblings (head k) -> ~ live k p.
Proof.
  unfold scanned. destruct (list_find _ _) as [[i p]|] eqn:Ef; [discriminate|].
  intros _. apply list_find_none_live, Ef.
Qed.

Lemma cache_hit_some (k : kernel) (c : ns_ptr) :
  cache_hit k = Some c <-> current_path (head k) = Some c /\ live k c.
Proof.
  unfold cache_hit. destruct (current_path (head k)) as [c'|].
  - destruct (decide (live k c')) as [Hc|Hc]; split.
    + intros [= <-]. auto.
    + intros [[= <-] _]. reflexivity.
    + discriminate.
    + intros [[= <-] Hl]. contradiction.
  - split; [discriminate|intros [? _]; discriminate].
Qed.

Lemma cache_hit_none (k : kernel) :
  cache_hit k = None -> forall c, current_path (head k) = Some c -> ~ live k c.
Proof.
  intros Hn c Ec Hc.
  assert (cache_hit k = Some c) by (apply cache_hit_some; auto). congruence.
Qed.

(** The selector computes [selected] and leaves [after_select]. *)
Lemma find_path_eq (k : kernel) :
  nvme_find_path k = Some (selected k, after_select k).
Proof.
  unfold selected, after_select.
  destruct (cache_hit k) as [c|] eqn:Eh.
  - apply cache_hit_some in Eh as [Ec Hc]. apply find_path_cached; assumption.
  - rewrite (find_path_scan k (cache_hit_none k Eh)), find_path_from_spec.
    unfold scanned.
    destruct (list_find (live k) (siblings (head k))) as [[i ns]|]; reflexivity.
Qed.

Lemma selected_after_select (k : kernel) :
  selected (after_select k) = selected k /\
  after_select (after_select k) = after_select k.
Proof.
  unfold selected, after_select.
  destruct (cache_hit k) as [c|] eqn:Eh.
  - rewrite Eh. auto.
  - destruct (scanned k) as [ns|] eqn:Es.
    + apply scanned_first_live, first_live_elem in Es as [_ Hlive].
      assert (Hh : cache_hit (install ns k) = Some ns)
        by (apply cache_hit_some; split; [reflexivity|exact Hlive]).
      rewrite Hh. auto.
    + rewrite Eh, Es. auto.
Qed.

(** X1. Asking the selector twice is asking it once: the second call
    returns what the first returned and writes nothing, whether the
    first call hit the cache, installed a path or found none. *)
Theorem find_path_twice (k : kernel) :
  (nvme_find_path ≫= fun _ => nvme_find_path) k = nvme_find_path k /\
  exists (r : option ns_ptr) (k' : kernel),
    nvme_find_path k = Some (r, k') /\ nvme_find_path k' = Some (r, k').
Proof.
  destruct (selected_after_select k) as [Hs Ha].
  assert (E2 : nvme_find_path (after_select k) =
               Some (selected k, after_select k))
    by (rewrite find_path_eq, Hs, Ha; reflexivity).
  split.
  - rewrite (bind_some _ _ _ _ _ (find_path_eq k)), E2.
    symmetry. apply find_path_eq.
  - exists (selected k), (after_select k). split; [apply find_path_eq|exact E2].
Qed.

Lemma selected_is_cached (k : kernel) (ns : ns_ptr) :
  selected k = Some ns -> current_path (head (after_select k)) = Some ns.
Proof.
  unfold selected, after_select.
  destruct (cache_hit k) as [c|] eqn:Eh.
  - intros [= <-]. apply cache_hit_some in Eh as [Ec _]. exact Ec.
  - destruct (scanned k) as [p|]; [|discriminate].
    intros [= <-]. reflexivity.
Qed.

Lemma set_current_path_same (h : nvme_ns_head) :
  set_current_path (current_path h) h = h.
Proof. destruct h. reflexivity. Qed.

Lemma set_head_same (k : kernel) : set_head (head k) k = k.
Proof. destruct k. reflexivity. Qed.

(** X2. The selector writes the cache slot and nothing else: the state
    it leaves is the state it found with, at most, another cached path.
    A path it returns is the cached path afterwards.  If the cached path
    was a path of the set (or there was none), the path returned is a
    path of the set, and the cached path still is one afterwards. *)
Theorem find_path_writes_cache_only (k : kernel) :
  exists (r : option ns_ptr) (k' : kernel),
    nvme_find_path k = Some (r, k') /\
    k' = set_head (set_current_path (current_path (head k')) (head k)) k /\
    (forall ns, r = Some ns -> current_path (head k') = Some ns) /\
    (cache_in_set k ->
       cache_in_set k' /\ forall ns, r = Some ns -> ns ∈ siblings (head k)).
Proof.
  exists (selected k), (after_select k). split; [apply find_path_eq|].
  unfold selected, after_select.
  destruct (cache_hit k) as [c|] eqn:Eh.
  - apply cache_hit_some in Eh as [Ec Hc].
    split; [rewrite set_current_path_same, set_head_same; reflexivity|].
    split; [intros ? [= <-]; exact Ec|].
    intros Hin. split; [exact Hin|]. intros ? [= <-]. apply Hin, Ec.
  - destruct (scanned k) as [ns|] eqn:Es.
    + apply scanned_first_live, first_live_elem in Es as [Hmem _].
      split; [reflexivity|]. split; [intros ? [= <-]; reflexivity|].
      intros _. split.
      * intros c [= <-]. exact Hmem.
      * intros ? [= <-]. exact Hmem.
    + split; [rewrite set_current_path_same, set_head_same; reflexivity|].
      split; [discriminate|]. intros Hin. split; [exact Hin|discriminate].
Qed.

(** X3. Polling right after the selector returned a path polls that
    path: the poll function of its queue is called once and its answer
    returned.  Polling right after the selector found no path calls no
    poll function and answers false. *)
Theorem poll_after_select (k : kernel) (qc : Z) :
  exists (r : option ns_ptr) (k1 : kernel),
    nvme_find_path k = Some (r, k1) /\
    match r with
    | Some ns =>
        nvme_ns_head_poll qc k1 =
          Some (poll_answer k ns qc,
                set_log (log k1 ++ [ev_srcu_read_lock; ev_queue_poll_fn ns qc;
                                    ev_srcu_read_unlock]) k1)
    | None =>
        nvme_ns_head_poll qc k1 =
          Some (false,
                set_log (log k1 ++ [ev_srcu_read_lock; ev_srcu_read_unlock]) k1)
    end.
Proof.
  exists (selected k), (after_select k). split; [apply find_path_eq|].
  unfold nvme_ns_head_poll, selected, after_select. run.
  destruct (cache_hit k) as [c|] eqn:Eh.
  - apply cache_hit_some in Eh as [Ec Hc]. rewrite Ec.
    rewrite decide_True by exact Hc. cbn.
    rewrite <- !app_assoc. reflexivity.
  - destruct (scanned k) as [ns|] eqn:Es.
    + apply scanned_first_live, first_live_elem in Es as [_ Hlive].
      cbn. rewrite decide_True by exact Hlive. cbn.
      rewrite <- !app_assoc. reflexivity.
    + destruct (current_path (head k)) as [c|] eqn:Ec.
      * rewrite decide_False by (apply (cache_hit_none k Eh c Ec)).
        cbn. rewrite <- !app_assoc. reflexivity.
      * cbn. rewrite <- !app_assoc. reflexivity.
Qed.

End selector_algebra.

Section entry_point.
Context `{kernel_headers}.

Lemma after_select_cases (k : kernel) :
  after_select k = k \/
  exists ns, selected k = Some ns /\ after_select k = install ns k.
Proof.
  unfold after_select, selected. destruct (cache_hit k); [auto|].
  destruct (scanned k) as [ns|]; [right; eauto|auto].
Qed.

Lemma after_select_none (k : kernel) : selected k = None -> after_select k = k.
Proof.
  intros Hs. destruct (after_select_cases k) as [E|(ns & E & _)];
    [exact E|congruence].
Qed.

Lemma after_select_set_log (l : list event) (k : kernel) :
  after_select (set_log l k) = set_log l (after_select k).
Proof.
  unfold after_select.
  change (cache_hit (set_log l k)) with (cache_hit k).
  change (scanned (set_log l k)) with (scanned k).
  destruct (cache_hit k); [reflexivity|].
  destruct (scanned k); reflexivity.
Qed.

Lemma set_log_set_log (l l' : list event) (k : kernel) :
  set_log l (set_log l' k) = set_log l k.
Proof. reflexivity. Qed.

Lemma set_head_set_log (h : nvme_ns_head) (l : list event) (k : kernel) :
  set_head h (set_log l k) = set_log l (set_head h k).
Proof. reflexivity. Qed.

Lemma set_head_set_head (h h' : nvme_ns_head) (k : kernel) :
  set_head h (set_head h' k) = set_head h k.
Proof. reflexivity. Qed.

Lemma lock_round_trip (l : list bio) (h : nvme_ns_head) :
  requeue_lock h = false ->
  set_requeue_lock false (set_requeue_list l (set_requeue_lock true h)) =
  set_requeue_list l h.
Proof. destruct h. cbn. intros ->. reflexivity. Qed.

(** The state [nvme_ns_head_make_request] leaves and what it returns, by
    the path the selector picks. *)
Lemma make_request_run (k : kernel) (b : bio) :
  requeue_lock (head k) = false ->
  nvme_ns_head_make_request b k =
    Some (match selected k with
          | Some ns =>
              (cookie k (routed_bio ns b),
               set_log (log k ++
                          [ev_srcu_read_lock;
                           ev_direct_make_request (routed_bio ns b);
                           ev_srcu_read_unlock])
                 (after_select k))
          | None =>
              if decide (siblings (head k) = []) then
                (BLK_QC_T_NONE,
                 set_log (log k ++
                            [ev_srcu_read_lock;
                             ev_dev_warn_ratelimited "no path - failing I/O";
                             ev_bio_endio (failed_bio b);
                             ev_srcu_read_unlock]) k)
              else
                (BLK_QC_T_NONE,
                 set_log (log k ++
                            [ev_srcu_read_lock;
                             ev_dev_warn_ratelimited
                               "no path available - requeuing I/O";
                             ev_spin_lock_irq; ev_bio_list_add b;
                             ev_spin_unlock_irq; ev_srcu_read_unlock])
                   (set_head
                      (set_requeue_list (requeue_list (head k) ++ [b]) (head k))
                      k))
          end).
Proof.
  intros Hlock. unfold nvme_ns_head_make_request. unfold_monad.
  rewrite find_path_set_log, find_path_eq.
  destruct (selected k) as [ns|] eqn:Es.
  - destruct (after_select_cases k) as [->|(? & _ & ->)];
      cbn [log set_log head cookie install set_head];
      rewrite <- !app_assoc; reflexivity.
  - rewrite (after_select_none k Es). cbn [log set_log head].
    destruct (decide (siblings (head k) = [])) as [El|El].
    + rewrite (bool_decide_eq_true_2 _ El). cbn [negb].
      cbn [log set_log head]. rewrite <- !app_assoc. reflexivity.
    + rewrite (bool_decide_eq_false_2 _ El). cbn [negb].
      run. rewrite Hlock. cbn.
      rewrite <- !app_assoc.
      repeat (rewrite ?set_head_set_log, ?set_log_set_log, ?set_head_set_head).
      rewrite lock_round_trip by exact Hlock. reflexivity.
Qed.

(** A resubmission while the aggregate device is up is a pass through
    the entry point. *)
Lemma generic_make_request_run (k : kernel) (b : bio) :
  can_route k -> bi_disk b = head_disk ->
  generic_make_request b k =
    match nvme_ns_head_make_request b
            (set_log (log k ++ [ev_generic_make_request b]) k) with
    | Some (_, k') => Some (tt, k')
    | None => None
    end.
Proof.
  intros (Hlock & d & q & Hd & Hq & Hdying & Hfn) Hb.
  unfold generic_make_request. unfold_monad. rewrite Hb.
  cbn [head set_log]. rewrite Hd, Hq, Hdying, Hfn. reflexivity.
Qed.

End entry_point.

(** * Further properties: the drain *)

Section drain_outcomes.
Context `{kernel_headers}.

Lemma can_route_after_select (k : kernel) :
  can_route k -> can_route (after_select k).
Proof.
  intros Hk. destruct (after_select_cases k) as [->|(ns & _ & ->)];
    [exact Hk|exact Hk].
Qed.

(** The loop when a path takes the bios. *)
Lemma requeue_loop_dispatches (ns : ns_ptr) (next : list bio) :
  forall k : kernel,
    can_route k -> selected k = Some ns ->
    nvme_requeue_work_loop next k =
      Some (tt, set_log (log k ++ dispatch_trace ns next)
                  (match next with [] => k | _ => after_select k end)).
Proof.
  induction next as [|b next IH]; intros k Hk Hs.
  - cbn. rewrite app_nil_r. destruct k. reflexivity.
  - cbn [nvme_requeue_work_loop].
    erewrite bind_some.
    2:{ rewrite generic_make_request_run by (exact Hk || reflexivity).
        rewrite make_request_run by apply Hk.
        change (selected (set_log _ k)) with (selected k). rewrite Hs.
        reflexivity. }
    rewrite after_select_set_log, set_log_set_log. cbn [log set_log].
    destruct (selected_after_select k) as [Hs' Ha'].
    rewrite IH.
    + rewrite after_select_set_log, Ha'.
      assert (Hlog : log (after_select k) = log k)
        by (destruct (after_select_cases k) as [->|(? & _ & ->)]; reflexivity).
      cbn [log set_log dispatch_trace flat_map].
      rewrite <- !app_assoc. cbn [app].
      destruct next; reflexivity.
    + apply (can_route_after_select k Hk).
    + change (selected (set_log ?l ?x)) with (selected x).
      rewrite Hs'. exact Hs.
Qed.

(** The loop when no path is live and the set is not empty. *)
Lemma requeue_loop_requeues (next : list bio) :
  forall k : kernel,
    can_route k -> selected k = None -> siblings (head k) ≠ [] ->
    nvme_requeue_work_loop next k =
      Some (tt, set_log (log k ++ requeue_trace next)
                  (set_head
                     (set_requeue_list
                        (requeue_list (head k) ++
                         map (set_bi_disk head_disk) next) (head k)) k)).
Proof.
  induction next as [|b next IH]; intros k Hk Hs Hne.
  - cbn. rewrite !app_nil_r. destruct k as [? ? ? h ? ? ? ?]. destruct h.
    reflexivity.
  - cbn [nvme_requeue_work_loop].
    erewrite bind_some.
    2:{ rewrite generic_make_request_run by (exact Hk || reflexivity).
        rewrite make_request_run by apply Hk.
        change (selected (set_log _ k)) with (selected k). rewrite Hs.
        cbn [head set_log]. rewrite decide_False by exact Hne.
        reflexivity. }
    rewrite IH.
    + cbn [log set_log head set_head requeue_list set_requeue_list
           requeue_trace flat_map map].
      rewrite <- !app_assoc. cbn [app]. reflexivity.
    + exact Hk.
    + exact Hs.
    + exact Hne.
Qed.

(** The loop when the path set is empty. *)
Lemma requeue_loop_fails (next : list bio) :
  forall k : kernel,
    can_route k -> selected k = None -> siblings (head k) = [] ->
    nvme_requeue_work_loop next k =
      Some (tt, set_log (log k ++ no_path_trace next) k).
Proof.
  induction next as [|b next IH]; intros k Hk Hs Hnil.
  - cbn. rewrite app_nil_r. destruct k. reflexivity.
  - cbn [nvme_requeue_work_loop].
    erewrite bind_some.
    2:{ rewrite generic_make_request_run by (exact Hk || reflexivity).
        rewrite make_request_run by apply Hk.
        change (selected (set_log _ k)) with (selected k). rewrite Hs.
        cbn [head set_log]. rewrite decide_True by exact Hnil.
        reflexivity. }
    rewrite IH by assumption.
    cbn [log set_log no_path_trace flat_map].
    rewrite <- !app_assoc. cbn [app]. reflexivity.
Qed.

(** The drain up to its loop. *)
Lemma requeue_work_run (k : kernel) :
  requeue_lock (head k) = false ->
  nvme_requeue_work k =
    nvme_requeue_work_loop (requeue_list (head k))
      (set_log (log k ++ [ev_spin_lock_irq;
                          ev_bio_list_get (requeue_list (head k));
                          ev_spin_unlock_irq])
         (set_head (set_requeue_list [] (head k)) k)).
Proof.
  intros Hlock. unfold nvme_requeue_work. run. rewrite Hlock. cbn.
  rewrite <- !app_assoc. cbn.
  f_equal. unfold set_log, set_head, set_requeue_list. cbn.
  rewrite <- Hlock. reflexivity.
Qed.

Lemma find_path_selected (k k1 : kernel) (r : option ns_ptr) :
  nvme_find_path k = Some (r, k1) -> selected k = r /\ after_select k = k1.
Proof. rewrite find_path_eq. intros [= -> ->]. auto. Qed.

Lemma dispatch_trace_bios (ns : ns_ptr) (l : list bio) :
  dispatched (dispatch_trace ns l) =
    map (fun b => routed_bio ns (set_bi_disk head_disk b)) l /\
  ended (dispatch_trace ns l) = [] /\
  enqueued (dispatch_trace ns l) = [] /\
  resubmitted (dispatch_trace ns l) = map (set_bi_disk head_disk) l.
Proof.
  induction l as [|b l (IH1 & IH2 & IH3 & IH4)]; [auto|].
  cbn. fold (dispatch_trace ns l).
  fold (dispatched (dispatch_trace ns l)). fold (ended (dispatch_trace ns l)).
  fold (enqueued (dispatch_trace ns l)).
  fold (resubmitted (dispatch_trace ns l)).
  rewrite IH1, IH2, IH3, IH4. auto.
Qed.

Lemma requeue_trace_bios (l : list bio) :
  dispatched (requeue_trace l) = [] /\
  ended (requeue_trace l) = [] /\
  enqueued (requeue_trace l) = map (set_bi_disk head_disk) l /\
  resubmitted (requeue_trace l) = map (set_bi_disk head_disk) l.
Proof.
  induction l as [|b l (IH1 & IH2 & IH3 & IH4)]; [auto|].
  cbn. fold (requeue_trace l).
  fold (dispatched (requeue_trace l)). fold (ended (requeue_trace l)).
  fold (enqueued (requeue_trace l)). fold (resubmitted (requeue_trace l)).
  rewrite IH1, IH2, IH3, IH4. auto.
Qed.

Lemma no_path_trace_bios (l : list bio) :
  dispatched (no_path_trace l) = [] /\
  ended (no_path_trace l) =
    map (fun b => failed_bio (set_bi_disk head_disk b)) l /\
  enqueued (no_path_trace l) = [] /\
  resubmitted (no_path_trace l) = map (set_bi_disk head_disk) l.
Proof.
  induction l as [|b l (IH1 & IH2 & IH3 & IH4)]; [auto|].
  cbn. fold (no_path_trace l).
  fold (dispatched (no_path_trace l)). fold (ended (no_path_trace l)).
  fold (enqueued (no_path_trace l)). fold (resubmitted (no_path_trace l)).
  rewrite IH1, IH2, IH3, IH4. auto.
Qed.

(** X4. A drain while the selector finds a path: with the aggregate
    device up, every waiting bio is sent down that one path, in queue
    order, aimed at the disk of the path and carrying the multipath tag;
    none is ended and none is queued again, so the queue is empty
    afterwards, and the path is the cached path if there was anything to
    send. *)
Theorem drain_dispatches_all (k k1 : kernel) (ns : ns_ptr) :
  can_route k ->
  nvme_find_path k = Some (Some ns, k1) ->
  exists k' : kernel,
    nvme_requeue_work k = Some (tt, k') /\
    log k' = log k ++
      [ev_spin_lock_irq; ev_bio_list_get (requeue_list (head k));
       ev_spin_unlock_irq] ++ dispatch_trace ns (requeue_list (head k)) /\
    dispatched (dispatch_trace ns (requeue_list (head k))) =
      map (fun b => routed_bio ns (set_bi_disk head_disk b))
        (requeue_list (head k)) /\
    ended (dispatch_trace ns (requeue_list (head k))) = [] /\
    Forall (fun b => bi_disk b = ns_disk ns /\ mpath_routed (bi_opf b))
      (dispatched (dispatch_trace ns (requeue_list (head k)))) /\
    requeue_list (head k') = [] /\
    (requeue_list (head k) ≠ [] -> current_path (head k') = Some ns).
Proof.
  intros Hk Efind. apply find_path_selected in Efind as [Hs Ha].
  pose proof Hk as (Hlock & d & q & Hd & Hq & Hdying & Hfn).
  set (l := requeue_list (head k)).
  set (k0 := set_log (log k ++ [ev_spin_lock_irq; ev_bio_list_get l;
                                ev_spin_unlock_irq])
               (set_head (set_requeue_list [] (head k)) k)).
  assert (Hk0 : can_route k0) by (split; [exact Hlock|exists d, q; auto]).
  assert (Hs0 : selected k0 = Some ns) by exact Hs.
  pose proof (requeue_loop_dispatches ns l k0 Hk0 Hs0) as Eloop.
  exists (set_log (log k0 ++ dispatch_trace ns l)
            (match l with [] => k0 | _ => after_select k0 end)).
  split; [rewrite (requeue_work_run k Hlock); exact Eloop|].
  destruct (dispatch_trace_bios ns l) as (Hd1 & Hd2 & _).
  split; [|split; [exact Hd1|split; [exact Hd2|split; [|split]]]].
  - cbn [log set_log]. unfold k0. cbn [log set_log].
    rewrite <- !app_assoc. reflexivity.
  - rewrite Hd1. apply Forall_map, Forall_true. intros b.
    split; [reflexivity|apply routed_bio_tagged].
  - cbn [head set_log]. destruct l; [reflexivity|].
    destruct (after_select_cases k0) as [->|(? & _ & ->)]; reflexivity.
  - intros Hne. cbn [head set_log]. destruct l as [|b l']; [congruence|].
    exact (selected_is_cached k0 ns Hs0).
Qed.

(** X5. A drain while no path is live and the path set is not empty:
    every waiting bio is taken off the queue, resubmitted, and queued
    again by the entry point, so after the drain the queue holds the same
    buffers in the same order, each now aimed at the aggregate device.
    Nothing is sent down a path and nothing is ended. *)
Theorem drain_requeues_all (k k1 : kernel) :
  can_route k ->
  nvme_find_path k = Some (None, k1) ->
  siblings (head k) ≠ [] ->
  exists k' : kernel,
    nvme_requeue_work k = Some (tt, k') /\
    log k' = log k ++
      [ev_spin_lock_irq; ev_bio_list_get (requeue_list (head k));
       ev_spin_unlock_irq] ++ requeue_trace (requeue_list (head k)) /\
    requeue_list (head k') =
      map (set_bi_disk head_disk) (requeue_list (head k)) /\
    map bi_id (requeue_list (head k')) = map bi_id (requeue_list (head k)) /\
    dispatched (requeue_trace (requeue_list (head k))) = [] /\
    ended (requeue_trace (requeue_list (head k))) = [] /\
    current_path (head k') = current_path (head k) /\
    requeue_lock (head k') = false.
Proof.
  intros Hk Efind Hne. apply find_path_selected in Efind as [Hs Ha].
  pose proof Hk as (Hlock & d & q & Hd & Hq & Hdying & Hfn).
  set (l := requeue_list (head k)).
  set (k0 := set_log (log k ++ [ev_spin_lock_irq; ev_bio_list_get l;
                                ev_spin_unlock_irq])
               (set_head (set_requeue_list [] (head k)) k)).
  assert (Hk0 : can_route k0) by (split; [exact Hlock|exists d, q; auto]).
  assert (Hs0 : selected k0 = None) by exact Hs.
  pose proof (requeue_loop_requeues l k0 Hk0 Hs0 Hne) as Eloop.
  eexists. split; [rewrite (requeue_work_run k Hlock); exact Eloop|].
  destruct (requeue_trace_bios l) as (Hd1 & Hd2 & _).
  cbn [log set_log head set_head requeue_list set_requeue_list
       current_path requeue_lock].
  split; [unfold k0; cbn [log set_log]; rewrite <- !app_assoc; reflexivity|].
  split; [reflexivity|].
  split; [change (requeue_list (head k0)) with (@nil bio); cbn [app];
          rewrite map_map; reflexivity|].
  split; [exact Hd1|]. split; [exact Hd2|]. split; [reflexivity|exact Hlock].
Qed.

(** X6. A drain while the path set is empty: every waiting bio is
    resubmitted and ended with [BLK_STS_IOERR], in queue order; nothing is
    sent down a path, and the queue is empty afterwards. *)
Theorem drain_fails_all (k k1 : kernel) :
  can_route k ->
  nvme_find_path k = Some (None, k1) ->
  siblings (head k) = [] ->
  exists k' : kernel,
    nvme_requeue_work k = Some (tt, k') /\
    log k' = log k ++
      [ev_spin_lock_irq; ev_bio_list_get (requeue_list (head k));
       ev_spin_unlock_irq] ++ no_path_trace (requeue_list (head k)) /\
    ended (no_path_trace (requeue_list (head k))) =
      map (fun b => failed_bio (set_bi_disk head_disk b))
        (requeue_list (head k)) /\
    Forall (fun b => bi_status b = BLK_STS_IOERR)
      (ended (no_path_trace (requeue_list (head k)))) /\
    dispatched (no_path_trace (requeue_list (head k))) = [] /\
    requeue_list (head k') = [].
Proof.
  intros Hk Efind Hnil. apply find_path_selected in Efind as [Hs Ha].
  pose proof Hk as (Hlock & d & q & Hd & Hq & Hdying & Hfn).
  set (l := requeue_list (head k)).
  set (k0 := set_log (log k ++ [ev_spin_lock_irq; ev_bio_list_get l;
                                ev_spin_unlock_irq])
               (set_head (set_requeue_list [] (head k)) k)).
  assert (Hk0 : can_route k0) by (split; [exact Hlock|exists d, q; auto]).
  assert (Hs0 : selected k0 = None) by exact Hs.
  pose proof (requeue_loop_fails l k0 Hk0 Hs0 Hnil) as Eloop.
  eexists. split; [rewrite (requeue_work_run k Hlock); exact Eloop|].
  destruct (no_path_trace_bios l) as (Hd1 & Hd2 & _).
  cbn [log set_log head].
  split; [unfold k0; cbn [log set_log]; rewrite <- !app_assoc; reflexivity|].
  split; [exact Hd2|].
  split; [rewrite Hd2; apply Forall_map, Forall_true; reflexivity|].
  split; [exact Hd1|reflexivity].
Qed.

End drain_outcomes.

(** * Further properties: the pipeline end to end *)

Section end_to_end.
Context `{kernel_headers}.

(** The state [nvme_failover_req] leaves. *)
Lemma failover_req_run (k : kernel) (req : request) :
  requeue_lock (head k) = false ->
  nvme_failover_req req k =
    Some (set_rq_bios [] req,
          set_log (log k ++
                     [ev_spin_lock_irqsave;
                      ev_blk_steal_bios (rq_id req) (rq_bios req);
                      ev_spin_unlock_irqrestore;
                      ev_blk_mq_end_request (rq_id req) 0;
                      ev_nvme_reset_ctrl (ctrl (namespaces k (rq_ns req)));
                      ev_kblockd_schedule_work])
            (set_head
               (set_requeue_work (requeue_work (head k)) true
                  (set_requeue_list (requeue_list (head k) ++ rq_bios req)
                     (head k))) k)).
Proof.
  intros Hlock. unfold nvme_failover_req. run. rewrite Hlock. cbn.
  rewrite <- !app_assoc.
  destruct k as [mp cs nss h al ck pa lg].
  destruct h as [sib cp rl lk rw rwp dk inst].
  cbn in Hlock. subst lk. reflexivity.
Qed.

Lemma run_calls_cons (c : api_call) (cs : list api_call) (k k' : kernel) :
  run_call c k = Some (tt, k') -> run_calls (c :: cs) k = run_calls cs k'.
Proof.
  intros E. cbn [run_calls].
  exact (bind_some _ (fun _ => run_calls cs) _ _ _ E).
Qed.

Lemma run_call_make_request (b : bio) (k k' : kernel) (ret : Z) :
  nvme_ns_head_make_request b k = Some (ret, k') ->
  run_call (api_make_request b) k = Some (tt, k').
Proof. intros E. cbn [run_call]. rewrite (bind_some _ _ _ _ _ E). reflexivity. Qed.

(** X7. Failover followed by the drain, while the selector finds a
    path: the failed request is completed with status 0 first, and then
    every bio that was waiting and every bio of the failed request is
    sent down the path the selector picks, in that order, tagged and
    aimed at that path's disk.  The failed request's own path is not
    excluded: if it is the cached path and its controller is still live,
    the bios go down the same path again.  The queue is empty
    afterwards. *)
Theorem failover_then_drain (k k1 : kernel) (req : request) (ns : ns_ptr) :
  can_route k ->
  nvme_find_path k = Some (Some ns, k1) ->
  exists k' : kernel,
    (nvme_failover_req req ≫= fun _ => nvme_requeue_work) k = Some (tt, k') /\
    log k' = log k ++
      [ev_spin_lock_irqsave;
       ev_blk_steal_bios (rq_id req) (rq_bios req);
       ev_spin_unlock_irqrestore;
       ev_blk_mq_end_request (rq_id req) 0;
       ev_nvme_reset_ctrl (ctrl (namespaces k (rq_ns req)));
       ev_kblockd_schedule_work;
       ev_spin_lock_irq;
       ev_bio_list_get (requeue_list (head k) ++ rq_bios req);
       ev_spin_unlock_irq] ++
      dispatch_trace ns (requeue_list (head k) ++ rq_bios req) /\
    dispatched (dispatch_trace ns (requeue_list (head k) ++ rq_bios req)) =
      map (fun b => routed_bio ns (set_bi_disk head_disk b))
        (requeue_list (head k) ++ rq_bios req) /\
    requeue_list (head k') = [].
Proof.
  intros Hk Efind. apply find_path_selected in Efind as [Hs _].
  pose proof Hk as (Hlock & d & q & Hd & Hq & Hdying & Hfn).
  rewrite (bind_some _ _ _ _ _ (failover_req_run k req Hlock)).
  set (l := requeue_list (head k) ++ rq_bios req).
  set (kf := set_log _ _).
  assert (Hlf : requeue_lock (head kf) = false) by exact Hlock.
  rewrite (requeue_work_run kf Hlf).
  change (requeue_list (head kf)) with l.
  set (k0 := set_log _ _).
  assert (Hk0 : can_route k0) by (split; [exact Hlock|exists d, q; auto]).
  assert (Hs0 : selected k0 = Some ns) by exact Hs.
  rewrite (requeue_loop_dispatches ns l k0 Hk0 Hs0).
  eexists. split; [reflexivity|].
  destruct (dispatch_trace_bios ns l) as (Hd1 & _).
  split; [|split; [exact Hd1|]].
  - cbn [log set_log]. unfold k0, kf. cbn [log set_log].
    rewrite <- !app_assoc. reflexivity.
  - cbn [head set_log]. destruct l; [reflexivity|].
    destruct (after_select_cases k0) as [->|(? & _ & ->)]; reflexivity.
Qed.

(** X8. A bio routed while no path was live is not lost: it waits on
    the queue, and once a controller is live again the next drain sends
    it, after the bios that waited before it, down the path the selector
    then picks. *)
Theorem requeue_then_recover (k k1 k2 : kernel) (b : bio)
    (c' : ctrl_ptr -> nvme_ctrl) (ns : ns_ptr) :
  can_route k ->
  nvme_find_path k = Some (None, k1) ->
  siblings (head k) ≠ [] ->
  nvme_find_path (set_ctrls c' k) = Some (Some ns, k2) ->
  exists k' : kernel,
    run_calls [api_make_request b; env_ctrls c'; api_requeue_work] k =
      Some (tt, k') /\
    dispatched (log k') =
      dispatched (log k) ++
      map (fun b => routed_bio ns (set_bi_disk head_disk b))
        (requeue_list (head k) ++ [b]) /\
    ended (log k') = ended (log k) /\
    requeue_list (head k') = [].
Proof.
  intros Hk Edown Hne Eup.
  apply find_path_selected in Edown as [Hs _].
  apply find_path_selected in Eup as [Hs' _].
  pose proof Hk as (Hlock & d & q & Hd & Hq & Hdying & Hfn).
  pose proof (make_request_run k b Hlock) as Erun.
  rewrite Hs, decide_False in Erun by exact Hne.
  set (kq := set_log _ _) in Erun.
  rewrite (run_calls_cons _ _ _ _ (run_call_make_request _ _ _ _ Erun)).
  rewrite (run_calls_cons (env_ctrls c') _ kq (set_ctrls c' kq) eq_refl).
  set (l := requeue_list (head k) ++ [b]).
  set (k0 := set_log (log kq ++ [ev_spin_lock_irq; ev_bio_list_get l;
                                 ev_spin_unlock_irq])
               (set_head (set_requeue_list [] (head kq)) (set_ctrls c' kq))).
  assert (Hk0 : can_route k0) by (split; [exact Hlock|exists d, q; auto]).
  assert (Hs0 : selected k0 = Some ns) by exact Hs'.
  assert (Edrain : nvme_requeue_work (set_ctrls c' kq) =
                   Some (tt, set_log (log k0 ++ dispatch_trace ns l)
                               (match l with [] => k0 | _ => after_select k0 end))).
  { rewrite (requeue_work_run (set_ctrls c' kq) Hlock).
    exact (requeue_loop_dispatches ns l k0 Hk0 Hs0). }
  rewrite (run_calls_cons api_requeue_work [] _ _ Edrain).
  eexists. split; [reflexivity|].
  destruct (dispatch_trace_bios ns l) as (Hd1 & Hd2 & _).
  cbn [log set_log head]. unfold k0 at 1 2. cbn [log set_log].
  unfold kq at 1 2. cbn [log set_log].
  unfold dispatched, ended in *. rewrite !omap_app, Hd1, Hd2.
  cbn [omap]. rewrite !app_nil_r.
  split; [reflexivity|]. split; [reflexivity|].
  destruct l; [reflexivity|].
  destruct (after_select_cases k0) as [->|(? & _ & ->)]; reflexivity.
Qed.


End end_to_end.

(** * Further properties: any sequence of calls *)

Section sequences.
Context `{kernel_headers}.

Lemma accounted_step (k k' : kernel) (evs : list event) :
  log k' = log k ++ evs ->
  accounted k' =
    map bi_id (requeue_list (head k')) ++
    (map bi_id (dispatched (log k)) ++ map bi_id (dispatched evs)) ++
    (map bi_id (ended (log k)) ++ map bi_id (ended evs)).
Proof.
  intros E. unfold accounted, dispatched, ended.
  rewrite E, !omap_app, !map_app. reflexivity.
Qed.

Lemma cache_in_set_after_select (k : kernel) :
  cache_in_set k -> cache_in_set (after_select k).
Proof.
  intros Hin. unfold after_select.
  destruct (cache_hit k); [exact Hin|].
  destruct (scanned k) as [ns|] eqn:Es; [|exact Hin].
  apply scanned_first_live, first_live_elem in Es as [Hmem _].
  intros c [= <-]. exact Hmem.
Qed.

Lemma after_select_frame (k : kernel) :
  siblings (head (after_select k)) = siblings (head k) /\
  disk (head (after_select k)) = disk (head k) /\
  requeue_list (head (after_select k)) = requeue_list (head k) /\
  log (after_select k) = log k.
Proof.
  destruct (after_select_cases k) as [->|(? & _ & ->)]; auto.
Qed.

Lemma make_request_safe (k : kernel) (b : bio) :
  can_route k -> cache_in_set k ->
  exists (ret : Z) (k' : kernel),
    nvme_ns_head_make_request b k = Some (ret, k') /\
    step_ok k k' [bi_id b].
Proof.
  intros Hk Hin. pose proof Hk as (Hlock & d & q & Hd & Hq & Hdying & Hfn).
  pose proof (make_request_run k b Hlock) as Erun.
  destruct (after_select_frame k) as (Hsib & Hdisk & Hrl & Hlog).
  destruct (selected k) as [ns|] eqn:Es.
  - eexists _, _. split; [exact Erun|]. unfold step_ok.
    split; [exact (can_route_after_select k Hk)|].
    split; [exact (cache_in_set_after_select k Hin)|].
    split; [exact Hsib|]. split; [exact Hdisk|].
    erewrite accounted_step
      by (cbn [log set_log]; rewrite <- Hlog; reflexivity).
    cbn [head set_log]. rewrite Hrl, Hlog. unfold accounted. cbn.
    solve_Permutation.
  - destruct (decide (siblings (head k) = [])) as [El|El].
    + eexists _, _. split; [exact Erun|]. unfold step_ok.
      split; [exact Hk|]. split; [exact Hin|].
      split; [reflexivity|]. split; [reflexivity|].
      erewrite accounted_step by (cbn [log set_log]; reflexivity).
      cbn [head set_log]. unfold accounted. cbn.
      solve_Permutation.
    + eexists _, _. split; [exact Erun|]. unfold step_ok.
      split; [split; [exact Hlock|exists d, q; auto]|].
      split; [exact Hin|].
      split; [reflexivity|]. split; [reflexivity|].
      erewrite accounted_step by (cbn [log set_log]; reflexivity).
      cbn [head set_log set_head requeue_list set_requeue_list].
      unfold accounted. rewrite map_app. cbn.
      solve_Permutation.
Qed.

Lemma step_ok_trans (k k1 k2 : kernel) (i1 i2 : list nat) :
  step_ok k k1 i1 -> step_ok k1 k2 i2 -> step_ok k k2 (i1 ++ i2).
Proof.
  intros (_ & _ & Hs1 & Hd1 & Ha1) (Hr & Hc & Hs2 & Hd2 & Ha2).
  split; [exact Hr|]. split; [exact Hc|].
  split; [congruence|]. split; [congruence|].
  rewrite Ha2, Ha1, app_assoc. reflexivity.
Qed.

Lemma step_ok_refl (k : kernel) :
  can_route k -> cache_in_set k -> step_ok k k [].
Proof.
  intros Hk Hin. split; [exact Hk|]. split; [exact Hin|].
  split; [reflexivity|]. split; [reflexivity|]. rewrite app_nil_r. reflexivity.
Qed.

Lemma requeue_loop_safe (next : list bio) :
  forall k : kernel,
    can_route k -> cache_in_set k ->
    exists k' : kernel,
      nvme_requeue_work_loop next k = Some (tt, k') /\
      step_ok k k' (map bi_id next).
Proof.
  induction next as [|b next IH]; intros k Hk Hin.
  - exists k. split; [reflexivity|]. apply step_ok_refl; assumption.
  - set (b' := set_bi_disk head_disk b).
    set (kg := set_log (log k ++ [ev_generic_make_request b']) k).
    assert (Hkg : step_ok k kg []).
    { split; [exact Hk|]. split; [exact Hin|].
      split; [reflexivity|]. split; [reflexivity|].
      erewrite (accounted_step k kg) by reflexivity.
      unfold accounted. cbn. rewrite !app_nil_r. reflexivity. }
    destruct (make_request_safe kg b' Hk Hin) as (ret & k1 & E1 & Hstep1).
    pose proof (step_ok_trans _ _ _ _ _ Hkg Hstep1) as Hstep.
    destruct (IH k1 (proj1 Hstep1) (proj1 (proj2 Hstep1)))
      as (k' & E2 & Hstep2).
    exists k'. split.
    + cbn [nvme_requeue_work_loop]. fold b'.
      erewrite bind_some; [exact E2|].
      rewrite generic_make_request_run by (exact Hk || reflexivity).
      fold kg. rewrite E1. reflexivity.
    + exact (step_ok_trans _ _ _ _ _ Hstep Hstep2).
Qed.

Lemma requeue_work_safe (k : kernel) :
  can_route k -> cache_in_set k ->
  exists k' : kernel,
    nvme_requeue_work k = Some (tt, k') /\ step_ok k k' [].
Proof.
  intros Hk Hin. pose proof Hk as (Hlock & d & q & Hd & Hq & Hdying & Hfn).
  set (l := requeue_list (head k)).
  set (k0 := set_log (log k ++ [ev_spin_lock_irq; ev_bio_list_get l;
                                ev_spin_unlock_irq])
               (set_head (set_requeue_list [] (head k)) k)).
  assert (Hk0 : can_route k0) by (split; [exact Hlock|exists d, q; auto]).
  destruct (requeue_loop_safe l k0 Hk0 Hin)
    as (k' & E & Hr & Hc & Hs & Hdk & Hacc).
  exists k'. split; [rewrite (requeue_work_run k Hlock); exact E|].
  split; [exact Hr|]. split; [exact Hc|].
  split; [exact Hs|]. split; [exact Hdk|].
  rewrite Hacc, app_nil_r.
  erewrite (accounted_step k k0) by reflexivity.
  unfold accounted. cbn. fold l. rewrite !app_nil_r.
  solve_Permutation.
Qed.

Lemma failover_req_safe (k : kernel) (req : request) :
  can_route k -> cache_in_set k ->
  exists (req' : request) (k' : kernel),
    nvme_failover_req req k = Some (req', k') /\
    step_ok k k' (map bi_id (rq_bios req)).
Proof.
  intros Hk Hin. pose proof Hk as (Hlock & d & q & Hd & Hq & Hdying & Hfn).
  eexists _, _. split; [exact (failover_req_run k req Hlock)|].
  split; [split; [exact Hlock|exists d, q; auto]|].
  split; [exact Hin|]. split; [reflexivity|]. split; [reflexivity|].
  erewrite accounted_step by (cbn [log set_log]; reflexivity).
  cbn [head set_log set_head requeue_list set_requeue_list set_requeue_work].
  unfold accounted. rewrite map_app. cbn. rewrite !app_nil_r.
  solve_Permutation.
Qed.

Lemma poll_safe (k : kernel) (qc : Z) :
  can_route k -> cache_in_set k ->
  exists (found : bool) (k' : kernel),
    nvme_ns_head_poll qc k = Some (found, k') /\ step_ok k k' [].
Proof.
  intros Hk Hin.
  assert (exists (found : bool) (evs : list event),
             nvme_ns_head_poll qc k = Some (found, set_log (log k ++ evs) k) /\
             dispatched evs = [] /\ ended evs = [])
    as (found & evs & E & Hd & He).
  { unfold nvme_ns_head_poll. run.
    destruct (current_path (head k)) as [ns|].
    - destruct (decide (ns_ctrl_state k ns = NVME_CTRL_LIVE)) as [El|El].
      + cbn. rewrite decide_True by exact El. cbn.
        exists (poll_answer k ns qc),
          [ev_srcu_read_lock; ev_queue_poll_fn ns qc; ev_srcu_read_unlock].
        split; [|split; reflexivity].
        rewrite <- !app_assoc. reflexivity.
      + cbn. rewrite decide_False by exact El. cbn.
        exists false, [ev_srcu_read_lock; ev_srcu_read_unlock].
        split; [|split; reflexivity].
        rewrite <- !app_assoc. reflexivity.
    - exists false, [ev_srcu_read_lock; ev_srcu_read_unlock].
      split; [|split; reflexivity].
      cbn. rewrite <- !app_assoc. reflexivity. }
  eexists _, _. split; [exact E|].
  split; [exact Hk|]. split; [exact Hin|].
  split; [reflexivity|]. split; [reflexivity|].
  erewrite accounted_step by (cbn [log set_log]; reflexivity).
  rewrite Hd, He. cbn [head set_log]. unfold accounted. cbn.
  rewrite !app_nil_r. reflexivity.
Qed.

Lemma find_path_safe (k : kernel) :
  can_route k -> cache_in_set k ->
  exists (r : option ns_ptr) (k' : kernel),
    nvme_find_path k = Some (r, k') /\ step_ok k k' [].
Proof.
  intros Hk Hin. eexists _, _. split; [apply find_path_eq|].
  destruct (after_select_frame k) as (Hsib & Hdisk & Hrl & Hlog).
  split; [exact (can_route_after_select k Hk)|].
  split; [exact (cache_in_set_after_select k Hin)|].
  split; [exact Hsib|]. split; [exact Hdisk|].
  unfold accounted. rewrite Hrl, Hlog, app_nil_r. reflexivity.
Qed.

Lemma run_call_safe (c : api_call) (k : kernel) :
  can_route k -> cache_in_set k ->
  exists k' : kernel,
    run_call c k = Some (tt, k') /\ step_ok k k' (entering c).
Proof.
  intros Hk Hin. destruct c as [b|req| |qc| |cs].
  - destruct (make_request_safe k b Hk Hin) as (ret & k' & E & Hstep).
    exists k'. split; [|exact Hstep].
    cbn [run_call]. rewrite (bind_some _ _ _ _ _ E). reflexivity.
  - destruct (failover_req_safe k req Hk Hin) as (req' & k' & E & Hstep).
    exists k'. split; [|exact Hstep].
    cbn [run_call]. rewrite (bind_some _ _ _ _ _ E). reflexivity.
  - exact (requeue_work_safe k Hk Hin).
  - destruct (poll_safe k qc Hk Hin) as (found & k' & E & Hstep).
    exists k'. split; [|exact Hstep].
    cbn [run_call]. rewrite (bind_some _ _ _ _ _ E). reflexivity.
  - destruct (find_path_safe k Hk Hin) as (r & k' & E & Hstep).
    exists k'. split; [|exact Hstep].
    cbn [run_call]. rewrite (bind_some _ _ _ _ _ E). reflexivity.
  - exists (set_ctrls cs k). split; [reflexivity|].
    split; [exact Hk|]. split; [exact Hin|].
    split; [reflexivity|]. split; [reflexivity|].
    cbn [entering]. rewrite app_nil_r. reflexivity.
Qed.

(** X9. On a head whose aggregate device is up and whose cached path,
    if any, is a path of the set, any sequence of calls of the entry
    point, of failover, of the drain, of the poll function and of the
    selector, with the controllers changing state in between in any way,
    runs to the end: no call takes the requeue lock while it is held and
    none dereferences a missing device.  Afterwards the device is still
    up with the lock free, the cached path is still a path of the set,
    the path set and the device are unchanged, and no buffer is lost or
    duplicated: the buffers waiting on the queue, sent down a path or
    ended are, as a multiset, those of before and those the calls
    brought in. *)
Theorem api_calls_safe (cs : list api_call) :
  forall k : kernel,
    can_route k -> cache_in_set k ->
    exists k' : kernel,
      run_calls cs k = Some (tt, k') /\
      can_route k' /\ cache_in_set k' /\
      siblings (head k') = siblings (head k) /\
      disk (head k') = disk (head k) /\
      accounted k' ≡ₚ accounted k ++ flat_map entering cs.
Proof.
  induction cs as [|c cs IH]; intros k Hk Hin.
  - exists k. split; [reflexivity|]. apply step_ok_refl; assumption.
  - destruct (run_call_safe c k Hk Hin) as (k1 & E1 & Hstep1).
    destruct (IH k1 (proj1 Hstep1) (proj1 (proj2 Hstep1))) as (k' & E2 & Hstep2).
    exists k'. split.
    + rewrite (run_calls_cons c cs k k1 E1). exact E2.
    + exact (step_ok_trans _ _ _ _ _ Hstep1 Hstep2).
Qed.

End sequences.

(** * Further properties: device names *)

Section names.

Lemma pretty_N_char_numeric (x : N) : numeric_char (pretty_N_char x) = true.
Proof. unfold pretty_N_char. repeat case_match; reflexivity. Qed.

Lemma pretty_N_go_numeric (x : N) :
  forall s : string, numeric s -> numeric (pretty_N_go x s).
Proof.
  induction (N.lt_wf_0 x) as [x _ IH]. intros s Hs.
  assert (x = 0 \/ 0 < x)%N as [->|Hpos] by lia.
  - rewrite pretty_N_go_0. exact Hs.
  - rewrite pretty_N_go_step by exact Hpos. apply IH.
    + apply N.div_lt; [exact Hpos|reflexivity].
    + split; [apply pretty_N_char_numeric|exact Hs].
Qed.

Lemma pretty_N_numeric (x : N) : numeric (pretty x).
Proof.
  unfold pretty, pretty_N. case_decide.
  - split; [reflexivity|exact I].
  - apply pretty_N_go_numeric. exact I.
Qed.

Lemma pretty_Z_numeric (x : Z) : numeric (pretty x).
Proof.
  destruct x as [|p|p]; unfold pretty, pretty_Z.
  - split; [reflexivity|exact I].
  - apply (pretty_N_numeric (Npos p)).
  - split; [reflexivity|]. apply (pretty_N_numeric (Npos p)).
Qed.

(** A run of numeric characters ends at the first other character. *)
Lemma numeric_split (s1 : string) :
  forall (s2 t1 t2 : string) (c1 c2 : ascii),
    numeric s1 -> numeric s2 ->
    numeric_char c1 = false -> numeric_char c2 = false ->
    s1 +:+ String c1 t1 = s2 +:+ String c2 t2 ->
    s1 = s2 /\ c1 = c2 /\ t1 = t2.
Proof.
  induction s1 as [|a s1 IH]; intros [|b s2] t1 t2 c1 c2 H1 H2 Hc1 Hc2 E;
    cbn in E.
  - injection E as -> ->. auto.
  - injection E as -> _. destruct H2 as [Hb _]. congruence.
  - injection E as -> _. destruct H1 as [Ha _]. congruence.
  - injection E as -> E. destruct H1 as [_ H1]. destruct H2 as [_ H2].
    destruct (IH s2 t1 t2 c1 c2 H1 H2 Hc1 Hc2 E) as (-> & -> & ->). auto.
Qed.

Lemma node_name_inj (a b a' b' : Z) :
  node_name a b = node_name a' b' -> a = a' /\ b = b'.
Proof.
  unfold node_name. cbn. intros [= E].
  apply numeric_split in E as (Ea & _ & Eb);
    [|apply pretty_Z_numeric..|reflexivity|reflexivity].
  split; [exact (pretty_Z_inj _ _ Ea)|exact (pretty_Z_inj _ _ Eb)].
Qed.

Lemma path_name_inj (a c b a' c' b' : Z) :
  path_name a c b = path_name a' c' b' -> a = a' /\ c = c' /\ b = b'.
Proof.
  unfold path_name. cbn. intros [= E].
  apply numeric_split in E as (Ea & _ & E);
    [|apply pretty_Z_numeric..|reflexivity|reflexivity].
  apply numeric_split in E as (Ec & _ & Eb);
    [|apply pretty_Z_numeric..|reflexivity|reflexivity].
  split; [exact (pretty_Z_inj _ _ Ea)|].
  split; [exact (pretty_Z_inj _ _ Ec)|exact (pretty_Z_inj _ _ Eb)].
Qed.

Lemma path_name_not_node_name (a c b a' b' : Z) :
  path_name a c b ≠ node_name a' b'.
Proof.
  unfold path_name, node_name. cbn. intros [= E].
  apply numeric_split in E as (_ & Ec & _);
    [|apply pretty_Z_numeric..|reflexivity|reflexivity].
  discriminate Ec.
Qed.

Lemma set_disk_name_cases (HIDDEN : Z) (k : kernel)
    (numbers : ctrl_ptr -> nvme_ctrl_numbers) (c : ctrl_ptr) (flags : Z) :
  multipath k = true ->
  (disk (head k) ≠ None /\
   nvme_set_disk_name HIDDEN k numbers c flags =
     (path_name (subsys_instance (subsys (ctrls k c))) (cntlid (numbers c))
        (instance (head k)), HIDDEN)) \/
  (disk (head k) = None /\
   nvme_set_disk_name HIDDEN k numbers c flags =
     (node_name (subsys_instance (subsys (ctrls k c))) (instance (head k)),
      flags)).
Proof.
  intros Hmp. unfold nvme_set_disk_name. rewrite Hmp. cbn [negb].
  destruct (disk (head k)); [left|right]; split;
    (congruence || reflexivity).
Qed.

(** X10. With multipathing on, device names do not collide: the names
    [nvme_set_disk_name] gives to two namespaces (of any two heads and
    controllers) are equal only if the two are of the same kind (both
    behind an aggregate device or both without one) and agree on the
    subsystem instance and the head instance, and, behind an aggregate
    device, on the controller id as well. *)
Theorem set_disk_name_no_collision (HIDDEN : Z) (k1 k2 : kernel)
    (numbers1 numbers2 : ctrl_ptr -> nvme_ctrl_numbers)
    (c1 c2 : ctrl_ptr) (flags1 flags2 : Z) :
  multipath k1 = true -> multipath k2 = true ->
  fst (nvme_set_disk_name HIDDEN k1 numbers1 c1 flags1) =
  fst (nvme_set_disk_name HIDDEN k2 numbers2 c2 flags2) ->
  (disk (head k1) = None <-> disk (head k2) = None) /\
  subsys_instance (subsys (ctrls k1 c1)) =
    subsys_instance (subsys (ctrls k2 c2)) /\
  instance (head k1) = instance (head k2) /\
  (disk (head k1) ≠ None -> cntlid (numbers1 c1) = cntlid (numbers2 c2)).
Proof.
  intros Hm1 Hm2.
  destruct (set_disk_name_cases HIDDEN k1 numbers1 c1 flags1 Hm1)
    as [[Hd1 ->]|[Hd1 ->]];
    destruct (set_disk_name_cases HIDDEN k2 numbers2 c2 flags2 Hm2)
      as [[Hd2 ->]|[Hd2 ->]]; cbn [fst]; intros E.
  - apply path_name_inj in E as (Ea & Ec & Eb). tauto.
  - destruct (path_name_not_node_name _ _ _ _ _ E).
  - symmetry in E. destruct (path_name_not_node_name _ _ _ _ _ E).
  - apply node_name_inj in E as (Ea & Eb). tauto.
Qed.

(** X11. With multipathing on, only a namespace behind an aggregate
    device is hidden, and the name it gets is never the name
    [nvme_mpath_alloc_disk] gives to an aggregate device, of this head or
    of any other.  A namespace without an aggregate device keeps its
    flags and gets exactly the name the aggregate device of its head
    would have had, numbered by subsystem instance and head instance.
    With multipathing off the flags are never touched. *)
Theorem set_disk_name_hides_paths `{kernel_headers} (HIDDEN : Z) (k : kernel)
    (numbers : ctrl_ptr -> nvme_ctrl_numbers) (c : ctrl_ptr) (flags : Z) :
  (multipath k = true ->
   match disk (head k) with
   | Some _ =>
       snd (nvme_set_disk_name HIDDEN k numbers c flags) = HIDDEN /\
       forall (k' : kernel) (c' : ctrl_ptr),
         fst (nvme_set_disk_name HIDDEN k numbers c flags) ≠
         disk_name (mpath_disk k' c')
   | None =>
       snd (nvme_set_disk_name HIDDEN k numbers c flags) = flags /\
       fst (nvme_set_disk_name HIDDEN k numbers c flags) =
       disk_name (mpath_disk k c)
   end) /\
  (multipath k = false ->
   nvme_set_disk_name HIDDEN k numbers c flags =
     (node_name (ctrl_instance (numbers c)) (instance (head k)), flags)).
Proof.
  split.
  - intros Hmp.
    destruct (set_disk_name_cases HIDDEN k numbers c flags Hmp)
      as [[Hd ->]|[Hd ->]].
    + destruct (disk (head k)); [|congruence].
      split; [reflexivity|]. intros k' c'. apply path_name_not_node_name.
    + rewrite Hd. split; reflexivity.
  - intros Hmp. unfold nvme_set_disk_name. rewrite Hmp. reflexivity.
Qed.

End names.

(** * Further properties: kicking the requeue lists *)

Section kick.

Lemma kicked_kicked (h : nvme_ns_head) : kicked (kicked h) = kicked h.
Proof. reflexivity. Qed.

Lemma kick_from_spec (l : list ns_ptr) :
  forall t : topology,
    ctrl_namespaces (nvme_kick_requeue_lists_from l t) = ctrl_namespaces t /\
    ns_head (nvme_kick_requeue_lists_from l t) = ns_head t /\
    kick_log (nvme_kick_requeue_lists_from l t) =
      kick_log t ++ map ev_kblockd_schedule_work_of (kick_targets t l) /\
    forall h : head_ptr,
      heads (nvme_kick_requeue_lists_from l t) h =
        if decide (h ∈ kick_targets t l) then kicked (heads t h)
        else heads t h.
Proof.
  induction l as [|ns rest IH]; intros t.
  - cbn. rewrite app_nil_r. repeat split.
  - cbn [nvme_kick_requeue_lists_from].
    set (h0 := ns_head t ns).
    destruct (disk (heads t h0)) as [d|] eqn:Ed.
    + set (t1 := set_heads _ _ t).
      destruct (IH t1) as (Hn & Hh & Hlog & Hheads).
      assert (Hdisk : forall h, disk (heads t1 h) = disk (heads t h)).
      { intros h. unfold t1. cbn [heads set_heads].
        destruct (decide (h0 = h)) as [<-|Hne].
        - rewrite fn_lookup_insert. reflexivity.
        - rewrite fn_lookup_insert_ne by exact Hne. reflexivity. }
      assert (Htargets : kick_targets t1 rest = kick_targets t rest).
      { unfold kick_targets. apply list_filter_iff. intros h.
        rewrite Hdisk. reflexivity. }
      assert (Hcons : kick_targets t (ns :: rest) = h0 :: kick_targets t rest).
      { unfold kick_targets. cbn [map]. fold h0.
        rewrite filter_cons_True by (rewrite Ed; eauto). reflexivity. }
      rewrite Hn, Hh, Hlog, Htargets, Hcons.
      split; [reflexivity|]. split; [reflexivity|].
      split; [unfold t1; cbn [kick_log set_heads map];
              rewrite <- app_assoc; reflexivity|].
      intros h. rewrite Hheads, Htargets. unfold t1. cbn [heads set_heads].
      destruct (decide (h0 = h)) as [<-|Hne].
      * rewrite fn_lookup_insert.
        rewrite (decide_True (P := h0 ∈ h0 :: _)) by apply list_elem_of_here.
        destruct (decide (h0 ∈ kick_targets t rest)); reflexivity.
      * rewrite fn_lookup_insert_ne by exact Hne.
        destruct (decide (h ∈ kick_targets t rest)) as [Hin|Hin].
        -- rewrite decide_True by (apply list_elem_of_further, Hin).
           reflexivity.
        -- rewrite decide_False; [reflexivity|].
           rewrite elem_of_cons. intros [->|?]; [congruence|contradiction].
    + destruct (IH t) as (Hn & Hh & Hlog & Hheads).
      assert (Hcons : kick_targets t (ns :: rest) = kick_targets t rest).
      { unfold kick_targets. cbn [map]. fold h0.
        rewrite filter_cons_False; [reflexivity|].
        rewrite Ed. intros [? ?]. discriminate. }
      rewrite Hcons. auto.
Qed.

(** X12. [nvme_kick_requeue_lists] schedules the requeue work of exactly
    the heads that have an aggregate device among the heads of the
    controller's namespaces, once per namespace and in list order,
    between taking and releasing the controller's namespaces mutex.  All
    it changes of a head is the pending bit of its work item: no queue
    is drained, no bio moves, heads without an aggregate device and heads
    of other controllers are not touched.  Kicking twice leaves the heads
    as kicking once does. *)
Theorem kick_requeue_lists_spec (c : ctrl_ptr) (t : topology) :
  kick_log (nvme_kick_requeue_lists c t) =
    kick_log t ++ [ev_mutex_lock c] ++
    map ev_kblockd_schedule_work_of (kick_targets t (ctrl_namespaces t c)) ++
    [ev_mutex_unlock c] /\
  (forall h : head_ptr,
     heads (nvme_kick_requeue_lists c t) h =
       if decide (h ∈ map (ns_head t) (ctrl_namespaces t c) /\
                  is_Some (disk (heads t h)))
       then kicked (heads t h) else heads t h) /\
  (forall h : head_ptr,
     requeue_list (heads (nvme_kick_requeue_lists c t) h) =
       requeue_list (heads t h) /\
     siblings (heads (nvme_kick_requeue_lists c t) h) = siblings (heads t h) /\
     current_path (heads (nvme_kick_requeue_lists c t) h) =
       current_path (heads t h) /\
     disk (heads (nvme_kick_requeue_lists c t) h) = disk (heads t h)) /\
  (forall h : head_ptr,
     heads (nvme_kick_requeue_lists c (nvme_kick_requeue_lists c t)) h =
     heads (nvme_kick_requeue_lists c t) h).
Proof.
  assert (Hrun : forall t0 : topology,
            kick_log (nvme_kick_requeue_lists c t0) =
              kick_log t0 ++ [ev_mutex_lock c] ++
              map ev_kblockd_schedule_work_of
                (kick_targets t0 (ctrl_namespaces t0 c)) ++
              [ev_mutex_unlock c] /\
            ctrl_namespaces (nvme_kick_requeue_lists c t0) = ctrl_namespaces t0 /\
            ns_head (nvme_kick_requeue_lists c t0) = ns_head t0 /\
            forall h : head_ptr,
              heads (nvme_kick_requeue_lists c t0) h =
                if decide (h ∈ kick_targets t0 (ctrl_namespaces t0 c))
                then kicked (heads t0 h) else heads t0 h).
  { intros t0. unfold nvme_kick_requeue_lists.
    set (t1 := set_heads (heads t0) (kick_log t0 ++ [ev_mutex_lock c]) t0).
    destruct (kick_from_spec (ctrl_namespaces t1 c) t1) as (Hn & Hh & Hlog & Hheads).
    cbn [kick_log heads set_heads ctrl_namespaces ns_head].
    rewrite Hlog, Hn, Hh.
    split; [unfold t1; cbn [kick_log set_heads]; rewrite <- !app_assoc;
            reflexivity|].
    split; [reflexivity|]. split; [reflexivity|].
    intros h. rewrite Hheads. reflexivity. }
  assert (Hmem : forall (t0 : topology) (h : head_ptr),
            h ∈ kick_targets t0 (ctrl_namespaces t0 c) <->
            h ∈ map (ns_head t0) (ctrl_namespaces t0 c) /\
            is_Some (disk (heads t0 h))).
  { intros t0 h. unfold kick_targets. rewrite list_elem_of_filter. tauto. }
  destruct (Hrun t) as (Hlog & Hn & Hh & Hheads).
  assert (Hfields : forall h : head_ptr,
            requeue_list (heads (nvme_kick_requeue_lists c t) h) =
              requeue_list (heads t h) /\
            siblings (heads (nvme_kick_requeue_lists c t) h) =
              siblings (heads t h) /\
            current_path (heads (nvme_kick_requeue_lists c t) h) =
              current_path (heads t h) /\
            disk (heads (nvme_kick_requeue_lists c t) h) = disk (heads t h)).
  { intros h. rewrite Hheads. case_decide; auto. }
  split; [exact Hlog|]. split; [|split; [exact Hfields|]].
  - intros h. rewrite Hheads.
    destruct (decide (h ∈ kick_targets t (ctrl_namespaces t c))) as [Hin|Hin].
    + rewrite decide_True by (apply Hmem, Hin). reflexivity.
    + rewrite decide_False by (rewrite <- Hmem; exact Hin). reflexivity.
  - intros h. destruct (Hrun (nvme_kick_requeue_lists c t)) as (_ & _ & _ & H2).
    rewrite H2, Hheads.
    assert (Hsame : h ∈ kick_targets (nvme_kick_requeue_lists c t)
                         (ctrl_namespaces (nvme_kick_requeue_lists c t) c) <->
                    h ∈ kick_targets t (ctrl_namespaces t c)).
    { rewrite !Hmem, Hn, Hh. destruct (Hfields h) as (_ & _ & _ & ->).
      reflexivity. }
    destruct (decide (h ∈ kick_targets t (ctrl_namespaces t c))) as [Hin|Hin].
    + rewrite decide_True by (apply Hsame, Hin). apply kicked_kicked.
    + rewrite decide_False by (rewrite Hsame; exact Hin). reflexivity.
Qed.

End kick.

(** * Further properties: bring-up, publication and tear-down *)

Section lifecycle_composition.
Context `{kernel_headers}.

Lemma alloc_disk_success (k : kernel) (c : ctrl_ptr) (rest : list bool) :
  aggregation_wanted k c ->
  allocations k = true :: true :: rest ->
  nvme_mpath_alloc_disk c k =
    Some (0, set_allocations rest
               (set_head (set_disk (Some (mpath_disk k c))
                            (initialised (head k))) k)).
Proof.
  intros [Hcmic Hmp] Ea. unfold nvme_mpath_alloc_disk. run.
  rewrite (bool_decide_eq_false_2 _ Hcmic), Hmp. cbn. rewrite Ea. cbn.
  destruct k as [mp cs nss h al ck pa lg]. destruct h. reflexivity.
Qed.

Lemma alloc_disk_no_device (k : kernel) (c : ctrl_ptr) (ret : Z) (k' : kernel) :
  disk (head k) = None ->
  nvme_mpath_alloc_disk c k = Some (ret, k') ->
  ret ≠ 0 \/ ~ aggregation_wanted k c ->
  disk (head k') = None.
Proof.
  intros Hd E Hor. unfold nvme_mpath_alloc_disk in E.
  destruct (decide (aggregation_wanted k c)) as [[Hcmic Hmp]|Hno].
  - revert E. run. rewrite (bool_decide_eq_false_2 _ Hcmic), Hmp. cbn.
    destruct (allocations k) as [|[] [|[] rest]]; cbn; intros [= <- <-]; cbn;
      try exact Hd; try reflexivity.
    destruct Hor as [Hret|Hnw]; [congruence|].
    destruct Hnw. split; assumption.
  - assert (bool_decide (Z.land (cmic (subsys (ctrls k c))) (Z.shiftl 1 1) = 0)
            || negb (multipath k) = true) as Eb.
    { unfold aggregation_wanted in Hno.
      destruct (decide (Z.land (cmic (subsys (ctrls k c))) (Z.shiftl 1 1) = 0))
        as [E0|E0].
      - rewrite (bool_decide_eq_true_2 _ E0). reflexivity.
      - rewrite (bool_decide_eq_false_2 _ E0).
        destruct (multipath k); [tauto|reflexivity]. }
    revert E. run. rewrite Eb. intros [= <- <-]. exact Hd.
Qed.

(** X13. A bring-up that yields no aggregate device leaves nothing to
    publish or tear down: on a head that had no device, when
    [nvme_mpath_alloc_disk] reports a failure or aggregation is not
    wanted, the head still has no device, [nvme_mpath_add_disk] makes no
    call at all, [nvme_mpath_remove_disk] returns at once without
    touching the state, and [nvme_set_disk_name] leaves the namespace
    visible. *)
Theorem bring_up_without_device_is_inert (HIDDEN : Z) (k k' : kernel)
    (c : ctrl_ptr) (ret sysfs_ret flags : Z)
    (numbers : ctrl_ptr -> nvme_ctrl_numbers) :
  disk (head k) = None ->
  nvme_mpath_alloc_disk c k = Some (ret, k') ->
  ret ≠ 0 \/ ~ aggregation_wanted k c ->
  disk (head k') = None /\
  nvme_mpath_add_disk sysfs_ret (head k') = [] /\
  nvme_mpath_remove_disk k' = Some (tt, k') /\
  snd (nvme_set_disk_name HIDDEN k' numbers c flags) = flags.
Proof.
  intros Hd E Hor.
  pose proof (alloc_disk_no_device k c ret k' Hd E Hor) as Hd'.
  split; [exact Hd'|]. split; [|split].
  - unfold nvme_mpath_add_disk. rewrite Hd'. reflexivity.
  - unfold nvme_mpath_remove_disk. unfold_monad. rewrite Hd'. reflexivity.
  - unfold nvme_set_disk_name. rewrite Hd'.
    destruct (multipath k'); reflexivity.
Qed.

Lemma remove_disk_run (k : kernel) (d : gendisk) (q : request_queue) :
  disk (head k) = Some d -> disk_queue d = Some q ->
  requeue_work (head k) = Some fn_nvme_requeue_work ->
  requeue_lock (head k) = false ->
  exists k' : kernel,
    nvme_mpath_remove_disk k = Some (tt, k') /\
    log k' = log k ++
      [ev_sysfs_remove_group; ev_del_gendisk; ev_blk_set_queue_dying;
       ev_kblockd_schedule_work; ev_flush_work;
       ev_spin_lock_irq; ev_bio_list_get (requeue_list (head k));
       ev_spin_unlock_irq] ++
      terminal_failures (requeue_list (head k)) ++
      [ev_blk_cleanup_queue; ev_put_disk] /\
    requeue_list (head k') = [] /\
    disk (head k') = Some (set_disk_queue (set_QUEUE_FLAG_DYING q) d).
Proof.
  intros Hd Hq Hwork Hlock.
  unfold nvme_mpath_remove_disk, flush_work, nvme_requeue_work. run.
  repeat (progress (rewrite ?Hd, ?Hq, ?Hwork, ?Hlock; cbn)).
  erewrite requeue_loop_dying by reflexivity.
  eexists. split; [reflexivity|]. cbn.
  split; [rewrite <- !app_assoc; reflexivity|]. split; reflexivity.
Qed.

(** X14. Bring-up, publication and tear-down fit together.  When
    aggregation is wanted and both allocations succeed (whatever the
    head held before), [nvme_mpath_add_disk] on the head adds the disk
    and creates the sysfs group, warning under the name of the disk
    exactly when the group cannot be created; and
    [nvme_mpath_remove_disk] right after the bring-up runs to the end,
    on the work item and the lock the bring-up initialised: it
    unpublishes, marks the queue dying, drains an empty queue and
    releases queue and disk. *)
Theorem bring_up_then_tear_down (k : kernel) (c : ctrl_ptr)
    (rest : list bool) (sysfs_ret : Z) :
  aggregation_wanted k c ->
  allocations k = true :: true :: rest ->
  exists k1 k' : kernel,
    nvme_mpath_alloc_disk c k = Some (0, k1) /\
    nvme_mpath_add_disk sysfs_ret (head k1) =
      [ev_device_add_disk; ev_sysfs_create_group] ++
      (if decide (sysfs_ret = 0) then []
       else [ev_pr_warn
               (node_name (subsys_instance (subsys (ctrls k c)))
                  (instance (head k)) +:+
                ": failed to create sysfs group for identification")]) /\
    (nvme_mpath_alloc_disk c ≫= fun _ => nvme_mpath_remove_disk) k =
      Some (tt, k') /\
    log k' = log k ++
      [ev_sysfs_remove_group; ev_del_gendisk; ev_blk_set_queue_dying;
       ev_kblockd_schedule_work; ev_flush_work;
       ev_spin_lock_irq; ev_bio_list_get []; ev_spin_unlock_irq;
       ev_blk_cleanup_queue; ev_put_disk] /\
    requeue_list (head k') = [] /\
    disk (head k') =
      Some (set_disk_queue (set_QUEUE_FLAG_DYING (mpath_queue k c))
              (mpath_disk k c)).
Proof.
  intros Hw Ea.
  pose proof (alloc_disk_success k c rest Hw Ea) as E1.
  set (k1 := set_allocations rest _) in E1.
  destruct (remove_disk_run k1 (mpath_disk k c) (mpath_queue k c)
              eq_refl eq_refl eq_refl eq_refl)
    as (k' & E2 & Hlog & Hlist & Hdisk).
  exists k1, k'. split; [exact E1|]. split; [|split; [|split; [|split]]].
  - unfold nvme_mpath_add_disk. cbn [head k1 set_allocations set_head disk set_disk].
    destruct (decide (sysfs_ret = 0)) as [E0|E0].
    + rewrite decide_False by tauto. reflexivity.
    + rewrite decide_True by exact E0. reflexivity.
  - rewrite (bind_some _ _ _ _ _ E1). exact E2.
  - rewrite Hlog. reflexivity.
  - exact Hlist.
  - exact Hdisk.
Qed.

(** X15. Tagging keeps the flags of the bio.  For a bio whose [bi_opf]
    is a 32-bit value, the flags after routing are the old flags with
    [REQ_NVME_MPATH] set: still a 32-bit value, every flag that was set
    is still set, and routing a bio that already carries the tag (a bio
    resubmitted after failover) leaves its flags as they are. *)
Theorem routed_bio_keeps_flags (ns ns' : ns_ptr) (b : bio) :
  0 <= bi_opf b < 2 ^ 32 ->
  bi_opf (routed_bio ns b) = Z.lor (bi_opf b) REQ_NVME_MPATH /\
  0 <= bi_opf (routed_bio ns b) < 2 ^ 32 /\
  Z.land (bi_opf (routed_bio ns b)) (bi_opf b) = bi_opf b /\
  bi_opf (routed_bio ns' (routed_bio ns b)) = bi_opf (routed_bio ns b) /\
  bi_id (routed_bio ns b) = bi_id b /\
  bi_status (routed_bio ns b) = bi_status b.
Proof.
  intros Hr. pose proof REQ_NVME_MPATH_flag as Hm.
  assert (Hlor : 0 <= Z.lor (bi_opf b) REQ_NVME_MPATH < 2 ^ 32).
  { split; [apply Z.lor_nonneg; lia|].
    destruct (decide (Z.lor (bi_opf b) REQ_NVME_MPATH = 0)) as [->|Hnz]; [lia|].
    apply Z.log2_lt_pow2; [pose proof (Z.lor_nonneg (bi_opf b) REQ_NVME_MPATH); lia|].
    rewrite Z.log2_lor by lia.
    apply Z.max_lub_lt.
    - destruct (decide (bi_opf b = 0)) as [->|?]; [reflexivity|].
      apply Z.log2_lt_pow2; lia.
    - apply Z.log2_lt_pow2; lia. }
  assert (E : bi_opf (routed_bio ns b) = Z.lor (bi_opf b) REQ_NVME_MPATH).
  { unfold routed_bio, wrap32. cbn [bi_opf set_bi_opf set_bi_disk].
    apply Z.mod_small, Hlor. }
  split; [exact E|]. split; [rewrite E; exact Hlor|].
  split; [|split; [|split; reflexivity]].
  - rewrite E. apply Z.bits_inj'. intros n Hn.
    rewrite Z.land_spec, Z.lor_spec.
    destruct (Z.testbit (bi_opf b) n), (Z.testbit REQ_NVME_MPATH n); reflexivity.
  - unfold routed_bio at 1. cbn [bi_opf set_bi_opf set_bi_disk].
    rewrite E. unfold wrap32.
    rewrite <- Z.lor_assoc, Z.lor_diag. apply Z.mod_small, Hlor.
Qed.

End lifecycle_composition.

(** * The further properties at the scenarios *)

Section further_scenarios.

Lemma B_back_can_route : can_route kernel_B_back.
Proof. split; [reflexivity|]. exists sample_disk, sample_queue. auto. Qed.

Lemma no_path_pending_can_route : can_route kernel_no_path_pending.
Proof. split; [reflexivity|]. exists sample_disk, sample_queue. auto. Qed.

Lemma all_down_cache_in_set : cache_in_set kernel_all_down.
Proof. intros c [= <-]. apply list_elem_of_here. Qed.

Lemma find_path_writes_cache_only_witness :
  exists (r : option ns_ptr) (k' : kernel),
    nvme_find_path kernel_A_stale = Some (r, k') /\
    cache_in_set k'.
Proof.
  destruct (find_path_writes_cache_only kernel_A_stale)
    as (r & k' & E & _ & _ & Hin).
  exists r, k'. split; [exact E|].
  apply Hin. intros c [= <-]. apply list_elem_of_here.
Defined.

Lemma drain_dispatches_all_witness :
  exists k' : kernel,
    nvme_requeue_work (H := linux_headers) kernel_B_back = Some (tt, k') /\
    requeue_list (head k') = [] /\
    current_path (head k') = Some path_B.
Proof.
  destruct (@drain_dispatches_all linux_headers kernel_B_back
              (install path_B kernel_B_back) path_B B_back_can_route eq_refl)
    as (k' & E & _ & _ & _ & _ & Hl & Hc).
  exists k'. split; [exact E|]. split; [exact Hl|].
  apply Hc. discriminate.
Defined.

Lemma drain_requeues_all_witness :
  exists k' : kernel,
    nvme_requeue_work (H := linux_headers) kernel_all_down = Some (tt, k') /\
    map bi_id (requeue_list (head k')) = [7; 8]%nat.
Proof.
  destruct (@drain_requeues_all linux_headers kernel_all_down kernel_all_down
              all_down_can_route eq_refl)
    as (k' & E & _ & _ & Hids & _).
  - discriminate.
  - exists k'. split; [exact E|exact Hids].
Defined.

Lemma drain_fails_all_witness :
  exists k' : kernel,
    nvme_requeue_work (H := linux_headers) kernel_no_path_pending =
      Some (tt, k') /\
    requeue_list (head k') = [].
Proof.
  destruct (@drain_fails_all linux_headers kernel_no_path_pending
              kernel_no_path_pending no_path_pending_can_route
              eq_refl eq_refl)
    as (k' & E & _ & _ & _ & _ & Hl).
  exists k'. split; [exact E|exact Hl].
Defined.

Lemma failover_then_drain_witness :
  exists k' : kernel,
    (nvme_failover_req failed_request ≫=
       fun _ => nvme_requeue_work (H := linux_headers)) kernel_A_stale =
      Some (tt, k') /\
    requeue_list (head k') = [].
Proof.
  assert (Hr : can_route kernel_A_stale)
    by (split; [reflexivity|exists sample_disk, sample_queue; auto]).
  destruct (@failover_then_drain linux_headers kernel_A_stale
              (install path_B kernel_A_stale) failed_request path_B
              Hr eq_refl)
    as (k' & E & _ & _ & Hl).
  exists k'. split; [exact E|exact Hl].
Defined.

Lemma requeue_then_recover_witness :
  exists k' : kernel,
    run_calls (H := linux_headers)
      [api_make_request (sample_bio 9);
       env_ctrls (ctrls_in NVME_CTRL_RECONNECTING NVME_CTRL_LIVE);
       api_requeue_work] kernel_all_down = Some (tt, k') /\
    map bi_id (dispatched (log k')) = [7; 8; 9]%nat.
Proof.
  destruct (@requeue_then_recover linux_headers kernel_all_down
              kernel_all_down (install path_B kernel_B_back) (sample_bio 9)
              (ctrls_in NVME_CTRL_RECONNECTING NVME_CTRL_LIVE) path_B
              all_down_can_route eq_refl)
    as (k' & E & Hd & _).
  - discriminate.
  - reflexivity.
  - exists k'. split; [exact E|]. rewrite Hd. reflexivity.
Defined.

Lemma api_calls_safe_witness :
  exists k' : kernel,
    run_calls (H := linux_headers)
      [api_make_request (sample_bio 9); api_failover_req failed_request;
       api_poll 0;
       env_ctrls (ctrls_in NVME_CTRL_RECONNECTING NVME_CTRL_LIVE);
       api_requeue_work; api_find_path] kernel_all_down = Some (tt, k') /\
    accounted k' ≡ₚ [7; 8; 9; 7; 8]%nat.
Proof.
  destruct (@api_calls_safe linux_headers
              [api_make_request (sample_bio 9); api_failover_req failed_request;
               api_poll 0;
               env_ctrls (ctrls_in NVME_CTRL_RECONNECTING NVME_CTRL_LIVE);
               api_requeue_work; api_find_path]
              kernel_all_down all_down_can_route all_down_cache_in_set)
    as (k' & E & _ & _ & _ & _ & Hacc).
  exists k'. split; [exact E|exact Hacc].
Defined.

Lemma set_disk_name_no_collision_witness :
  instance (head kernel_A_live) = instance (head kernel_A_stale) /\
  (disk (head kernel_A_live) ≠ None ->
   cntlid (sample_numbers path_A) = cntlid (sample_numbers path_A)).
Proof.
  exact (proj2 (proj2
    (set_disk_name_no_collision 0x400 kernel_A_live kernel_A_stale
       sample_numbers sample_numbers path_A path_A 0 1
       eq_refl eq_refl eq_refl))).
Defined.

Lemma set_disk_name_hides_paths_witness :
  nvme_set_disk_name 0x400 kernel_A_live sample_numbers path_A 0 =
    ("nvme0c11n1", 0x400) /\
  snd (nvme_set_disk_name 0x400 kernel_fresh sample_numbers path_A 0) = 0.
Proof.
  split; [reflexivity|].
  exact (proj1 (proj1 (@set_disk_name_hides_paths linux_headers 0x400
                         kernel_fresh sample_numbers path_A 0) eq_refl)).
Defined.

Lemma bring_up_without_device_is_inert_witness :
  match nvme_mpath_alloc_disk (H := linux_headers) path_A
          (set_allocations [true; false] kernel_fresh) with
  | Some (ret, k') =>
      ret = -12 /\
      nvme_mpath_remove_disk (H := linux_headers) k' = Some (tt, k')
  | None => False
  end.
Proof.
  destruct (nvme_mpath_alloc_disk (H := linux_headers) path_A
              (set_allocations [true; false] kernel_fresh))
    as [[ret k']|] eqn:E; [|vm_compute in E; discriminate E].
  assert (Hret : ret = -12) by (vm_compute in E; congruence).
  split; [exact Hret|].
  refine (proj1 (proj2 (proj2
    (@bring_up_without_device_is_inert linux_headers 0x400
       (set_allocations [true; false] kernel_fresh) k' path_A ret 0 0
       sample_numbers eq_refl E _)))).
  left. rewrite Hret. discriminate.
Defined.

Lemma bring_up_then_tear_down_witness :
  exists k' : kernel,
    (nvme_mpath_alloc_disk (H := linux_headers) path_A ≫=
       fun _ => nvme_mpath_remove_disk (H := linux_headers)) kernel_fresh =
      Some (tt, k') /\
    requeue_list (head k') = [].
Proof.
  assert (Hw : aggregation_wanted kernel_fresh path_A)
    by (split; [vm_compute; discriminate|reflexivity]).
  destruct (@bring_up_then_tear_down linux_headers kernel_fresh path_A [] 0
              Hw eq_refl)
    as (k1 & k' & _ & _ & E & _ & Hl & _).
  exists k'. split; [exact E|exact Hl].
Defined.

Lemma routed_bio_keeps_flags_witness :
  bi_opf (routed_bio (H := linux_headers) path_B (sample_bio 7)) = 0x800000.
Proof.
  assert (Hr : 0 <= bi_opf (sample_bio 7) < 2 ^ 32) by (cbn; lia).
  rewrite (proj1 (@routed_bio_keeps_flags linux_headers path_B path_B
                    (sample_bio 7) Hr)).
  reflexivity.
Defined.

(** Kicking the sample controller: the head with the aggregate device is
    scheduled once per namespace, the head without one is left alone. *)
Example kick_sample :
  kick_log (nvme_kick_requeue_lists path_A sample_topology) =
    [ev_mutex_lock path_A; ev_kblockd_schedule_work_of 0%nat;
     ev_kblockd_schedule_work_of 0%nat; ev_mutex_unlock path_A] /\
  requeue_work_pending
    (heads (nvme_kick_requeue_lists path_A sample_topology) 0%nat) = true /\
  requeue_work_pending
    (heads (nvme_kick_requeue_lists path_A sample_topology) 1%nat) = false /\
  requeue_work_pending
    (heads (nvme_kick_requeue_lists path_A sample_topology) 2%nat) = false.
Proof. repeat split. Qed.

Example names_of_the_scenarios :
  fst (nvme_set_disk_name 0x400 kernel_A_live sample_numbers path_A 0) =
    "nvme0c11n1" /\
  fst (nvme_set_disk_name 0x400 kernel_fresh sample_numbers path_A 0) =
    "nvme0n1" /\
  nvme_mpath_add_disk (-17) (head kernel_A_live) =
    [ev_device_add_disk; ev_sysfs_create_group;
     ev_pr_warn "nvme0n1: failed to create sysfs group for identification"].
Proof. repeat split. Qed.

End further_scenarios.
